(** * A shallow embedding of wiki.go

    The wiki server of [src/wiki.go]: a [Page] store on flat files
    ([save], [loadpage]), the title validator ([validPath], [getTitle]) and
    the three request handlers ([viewHandler], [editHandler], [saveHandler]).

    What the program takes from the Go standard library is modelled by the
    part of its documented behaviour that the program relies on:
    - [regexp]: a backtracking matcher with leftmost-first semantics over
      the operators that occur in [validPath];
    - [io/ioutil]: the files of the working directory, each with a
      permission mode and a content, and the resolution of a path to one
      of them;
    - [net/http]: the response writer as the sequence of replies that the
      handlers ask for, the request as its method, path and form fields;
    - [html/template]: the parsed template set is a parameter.

    Go strings are byte strings: [string] here, one [ascii] a byte.
    [[]byte] is [list byte]. A handler is run on one request at a time:
    the registration of the handlers in [main], the routing of the default
    mux and the interleaving of concurrent requests are not modelled.

    The file system is the one of a Linux host, reduced to what the
    program can reach: the working directory is its root directory, it
    holds regular files only, its names are case-sensitive byte strings of
    at most 255 bytes, and the process runs as their owner, who is not the
    superuser and may search the directory and create files in it. What
    else can make a write fail (a full disk, a failing device) is not
    modelled: the statements about [save] below say what holds when it
    returns an error and when it returns none, not that it returns none. *)

From Stdlib Require Import ZArith Ascii String List Lia.
From Stdlib.Strings Require Import Byte.
From stdpp Require Import base option list strings gmap.

Open Scope string_scope.

(** * Part I: the program *)

(** ** Strings *)

Module Strings.

(** [strings.CutPrefix]: the rest of [s] after [prefix], when [s] starts
    with it. *)
Fixpoint CutPrefix (s prefix : string) {struct prefix} : option string :=
  match prefix with
  | EmptyString => Some s
  | String c prefix' =>
      match s with
      | EmptyString => None
      | String d s' => if Ascii.eqb c d then CutPrefix s' prefix' else None
      end
  end.

(** [strings.Join]. *)
Fixpoint Join (elems : list string) (sep : string) : string :=
  match elems with
  | [] => ""
  | [e] => e
  | e :: es => e +:+ sep +:+ Join es sep
  end.

(** [strings.IndexByte(s, c) >= 0]. *)
Fixpoint ContainsByte (s : string) (c : ascii) : bool :=
  match s with
  | EmptyString => false
  | String d s' => Ascii.eqb c d || ContainsByte s' c
  end.

(** [strings.Cut] at a separator of one byte: what is before the first
    occurrence and what is after it. *)
Fixpoint CutByte (s : string) (sep : ascii) : option (string * string) :=
  match s with
  | EmptyString => None
  | String d s' =>
      if Ascii.eqb sep d then Some ("", s')
      else match CutByte s' sep with
           | Some (before, after) => Some (String d before, after)
           | None => None
           end
  end.

(** [strings.Repeat]. *)
Fixpoint Repeat (s : string) (count : nat) : string :=
  match count with
  | O => ""
  | S n => s +:+ Repeat s n
  end.

(** Every byte of [s] passes the test [f]. *)
Fixpoint all (f : ascii -> bool) (s : string) : bool :=
  match s with
  | EmptyString => true
  | String c s' => f c && all f s'
  end.

End Strings.

(** ** Package regexp, as far as [validPath] uses it *)

Module Regexp.

(** The operators of [regexp/syntax] that occur in the pattern. Its
    literals and classes are ASCII, so that matching byte by byte agrees
    with matching rune by rune: a byte above 127 is in no class and equals
    no literal. *)
Inductive Regexp : Type :=
| OpBeginText                                  (* ^ *)
| OpEndText                                    (* $ without the m flag: the end of the text *)
| OpLiteral (s : string)                       (* a literal string *)
| OpCharClass (ranges : list (ascii * ascii))  (* a class of byte ranges *)
| OpConcat (a b : Regexp)
| OpAlternate (a b : Regexp)                   (* a|b, a preferred *)
| OpPlus (a : Regexp)                          (* a+, greedy *)
| OpCapture (i : nat) (a : Regexp).            (* the i-th parenthesis *)

(** The source text of a pattern, which the method [String] of a compiled
    pattern gives back. *)
Fixpoint ranges_text (ranges : list (ascii * ascii)) : string :=
  match ranges with
  | [] => ""
  | (lo, hi) :: rs => String lo (String "-" (String hi (ranges_text rs)))
  end.

Fixpoint text (re : Regexp) : string :=
  match re with
  | OpBeginText => "^"
  | OpEndText => "$"
  | OpLiteral s => s
  | OpCharClass ranges => "[" +:+ ranges_text ranges +:+ "]"
  | OpConcat a b => text a +:+ text b
  | OpAlternate a b => text a +:+ "|" +:+ text b
  | OpPlus a => text a +:+ "+"
  | OpCapture _ a => "(" +:+ text a +:+ ")"
  end.

Fixpoint NumSubexp (re : Regexp) : nat :=
  match re with
  | OpConcat a b | OpAlternate a b => NumSubexp a `max` NumSubexp b
  | OpPlus a => NumSubexp a
  | OpCapture i a => i `max` NumSubexp a
  | _ => 0
  end.

Definition in_range (c : ascii) (r : ascii * ascii) : bool :=
  Nat.leb (nat_of_ascii (fst r)) (nat_of_ascii c)
  && Nat.leb (nat_of_ascii c) (nat_of_ascii (snd r)).

Definition in_class (ranges : list (ascii * ascii)) (c : ascii) : bool :=
  existsb (in_range c) ranges.

(** The capture registers: begin and end offset of each group, unset at
    first. *)
Definition caps : Type := list (option (nat * nat)).

(** A matcher takes the offset reached, the input left and the captures,
    and a continuation for the rest of the pattern; [None] makes the
    matcher backtrack. *)
Definition cont : Type := nat -> string -> caps -> option caps.
Definition matcher : Type := nat -> string -> caps -> cont -> option caps.

(** One or more iterations, longest first. An iteration that consumed
    nothing is not repeated. *)
Fixpoint plus_loop (step : matcher) (k : cont) (fuel : nat)
         (pos : nat) (rest : string) (cs : caps) : option caps :=
  step pos rest cs (fun p r c =>
    match fuel with
    | O => k p r c
    | S fuel' =>
        if (pos <? p)%nat then
          match plus_loop step k fuel' p r c with
          | Some m => Some m
          | None => k p r c
          end
        else k p r c
    end).

Fixpoint run (re : Regexp) (pos : nat) (rest : string) (cs : caps) (k : cont)
  {struct re} : option caps :=
  match re with
  | OpBeginText => if (pos =? 0)%nat then k pos rest cs else None
  | OpEndText =>
      match rest with
      | EmptyString => k pos rest cs
      | String _ _ => None
      end
  | OpLiteral s =>
      match Strings.CutPrefix rest s with
      | Some r => k (pos + String.length s)%nat r cs
      | None => None
      end
  | OpCharClass ranges =>
      match rest with
      | EmptyString => None
      | String c r => if in_class ranges c then k (S pos) r cs else None
      end
  | OpConcat a b => run a pos rest cs (fun p r c => run b p r c k)
  | OpAlternate a b =>
      match run a pos rest cs k with
      | Some m => Some m
      | None => run b pos rest cs k
      end
  | OpPlus a => plus_loop (run a) k (String.length rest) pos rest cs
  | OpCapture i a => run a pos rest cs (fun p r c => k p r (<[i := Some (pos, p)]> c))
  end.

(** The leftmost match: the pattern is tried at every offset in turn. *)
Fixpoint search (re : Regexp) (ncap : nat) (pos : nat) (rest : string) : option caps :=
  match run re pos rest (replicate ncap None)
            (fun p _ c => Some (<[0%nat := Some (pos, p)]> c)) with
  | Some m => Some m
  | None =>
      match rest with
      | EmptyString => None
      | String _ rest' => search re ncap (S pos) rest'
      end
  end.

Definition submatch (s : string) (loc : option (nat * nat)) : string :=
  match loc with
  | Some (b, e) => substring b (e - b) s
  | None => ""
  end.

(** The method [FindStringSubmatch]: the text of the leftmost match and of
    its groups, [None] for the nil slice of "no match". *)
Definition FindStringSubmatch (re : Regexp) (s : string) : option (list string) :=
  match search re (S (NumSubexp re)) 0 s with
  | Some m => Some (map (submatch s) m)
  | None => None
  end.

End Regexp.

Import Regexp.

(** ** Errors *)

Inductive Errno : Type :=
  ENOENT | EACCES | ENAMETOOLONG | EINVAL | ENOTDIR | EISDIR.

Definition Errno_Error (e : Errno) : string :=
  match e with
  | ENOENT => "no such file or directory"
  | EACCES => "permission denied"
  | ENAMETOOLONG => "file name too long"
  | EINVAL => "invalid argument"
  | ENOTDIR => "not a directory"
  | EISDIR => "is a directory"
  end.

(** The [error] values the program meets: the [*fs.PathError] of a failed
    file operation and the value of [errors.New]. *)
Inductive error : Type :=
| PathError (Op Path : string) (Err : Errno)
| errorString (s : string).

(** The method [Error() string]. *)
Definition Error (e : error) : string :=
  match e with
  | PathError Op Path Err => Op +:+ " " +:+ Path +:+ ": " +:+ Errno_Error Err
  | errorString s => s
  end.

Module errors.
Definition New (text : string) : error := errorString text.
End errors.

(** ** The state a request runs in *)

Definition FileMode : Type := Z.

(** A regular file: its permission bits and its content. *)
Record File : Type := { Mode : FileMode; Data : list byte }.

(** A reply the handler asked [net/http] to send on the response writer.
    The first of them fixes the status line. *)
Inductive Reply : Type :=
| ErrorReply (msg : string) (code : Z)      (* http.Error(w, msg, code): msg as plain text *)
| RedirectReply (url : string) (code : Z)   (* http.Redirect(w, r, url, code) *)
| WriteReply (out : string).                (* bytes a template streamed to w *)

Record State : Type := {
  files : gmap string File;          (* the working directory, by file name *)
  stdout : string;                   (* what the process has printed *)
  response : list Reply              (* w, the response writer of the request *)
}.

Definition set_files (f : gmap string File -> gmap string File) (σ : State) : State :=
  {| files := f (files σ); stdout := stdout σ; response := response σ |}.

Definition print (s : string) (σ : State) : State :=
  {| files := files σ; stdout := stdout σ +:+ s; response := response σ |}.

Definition reply (x : Reply) (σ : State) : State :=
  {| files := files σ; stdout := stdout σ; response := response σ ++ [x] |}.

(** The bytes a template writes; a template that writes nothing leaves the
    response writer as it is. *)
Definition streamed (out : string) (σ : State) : State :=
  match out with
  | EmptyString => σ
  | String _ _ => reply (WriteReply out) σ
  end.

(** A call returns a value and a state, or panics. *)
Inductive outcome (A : Type) : Type :=
| Returned (a : A) (σ : State)
| Panicked (v : string) (σ : State).
Arguments Returned {A} a σ.
Arguments Panicked {A} v σ.

Definition M (A : Type) : Type := State -> outcome A.

#[global] Instance M_ret : MRet M := fun A a σ => Returned a σ.

#[global] Instance M_bind : MBind M := fun A B f m σ =>
  match m σ with
  | Returned a σ' => f a σ'
  | Panicked v σ' => Panicked v σ'
  end.

Definition modify (f : State -> State) : M unit := fun σ => Returned tt (f σ).

Definition panic {A : Type} (v : string) : M A := fun σ => Panicked v σ.

(** ** Package io/ioutil: whole-file reads and writes *)

(** A mode in octal digits, as Go writes it: [0600] is [octal [0; 6; 0; 0]]. *)
Definition octal (digits : list Z) : FileMode :=
  fold_left (fun acc d => (8 * acc + d)%Z) digits 0%Z.

(** The permissions of the owner of the files, as whom the process runs
    (and who is not the superuser, whom no mode stops). *)
Definition owner_may_read (m : FileMode) : bool := Z.testbit m 8.   (* 0400 *)

Definition owner_may_write (m : FileMode) : bool := Z.testbit m 7.  (* 0200 *)

(** The limits of the host on one name and on a whole path (the latter
    counts the byte that ends the path). *)
Definition NAME_MAX : nat := 255.

Definition PATH_MAX : nat := 4096.

(** The components "", "." and ".." at the head of a path all stand for the
    working directory, which is the root: they are skipped. *)
Fixpoint skip_leading (path : string) : string :=
  match path with
  | EmptyString => ""
  | String c1 s1 =>
      if Ascii.eqb c1 "/" then skip_leading s1
      else if Ascii.eqb c1 "." then
        match s1 with
        | EmptyString => ""
        | String c2 s2 =>
            if Ascii.eqb c2 "/" then skip_leading s2
            else if Ascii.eqb c2 "." then
              match s2 with
              | EmptyString => ""
              | String c3 s3 => if Ascii.eqb c3 "/" then skip_leading s3 else path
              end
            else path
        end
      else path
  end.

(** What a path names. *)
Inductive target : Type :=
| Entry (key : string)               (* an entry of the working directory *)
| Through (dir rest : string)        (* something to be reached through the entry dir *)
| Directory                          (* the working directory itself *)
| Invalid (e : Errno).               (* no path at all *)

Definition resolve (path : string) : target :=
  if Strings.ContainsByte path "000" then Invalid EINVAL
  else
    match path with
    | EmptyString => Invalid ENOENT
    | String _ _ =>
        if Strings.ContainsByte path "/" && (PATH_MAX <=? String.length path)%nat
        then Invalid ENAMETOOLONG
        else
          match skip_leading path with
          | EmptyString => Directory
          | String _ _ as rest =>
              match Strings.CutByte rest "/" with
              | None => Entry rest
              | Some (dir, rest') => Through dir rest'
              end
          end
    end.

(** The error of a path that goes through an entry: no entry of the
    working directory is a directory. *)
Definition through_error (σ : State) (dir : string) : Errno :=
  if (NAME_MAX <? String.length dir)%nat then ENAMETOOLONG
  else match files σ !! dir with
       | Some _ => ENOTDIR
       | None => ENOENT
       end.

Module ioutil.

(** [WriteFile] opens the file for writing, creating it with mode [perm]
    when there is none (the umask is taken to leave the bits of the owner)
    and truncating it otherwise, without changing its mode; then it writes
    the data. A file that the owner may not write is not opened, and stays
    as it is; a name that is too long, or that asks for a directory, names
    no file to create. *)
Definition WriteFile (filename : string) (data : list byte) (perm : FileMode)
  : M (option error) := fun σ =>
  let refused (e : Errno) := Returned (Some (PathError "open" filename e)) σ in
  match resolve filename with
  | Invalid e => refused e
  | Directory => refused EISDIR
  | Through dir rest =>
      if Strings.all (Ascii.eqb "/") rest then refused EISDIR
      else refused (through_error σ dir)
  | Entry key =>
      match files σ !! key with
      | None =>
          if (NAME_MAX <? String.length key)%nat then refused ENAMETOOLONG
          else Returned None (set_files <[key := {| Mode := perm; Data := data |}]> σ)
      | Some f =>
          if owner_may_write (Mode f) then
            Returned None (set_files <[key := {| Mode := Mode f; Data := data |}]> σ)
          else refused EACCES
      end
  end.

(** [ReadFile] gives the content of a file that is there and that the owner
    may read. *)
Definition ReadFile (filename : string) : M (list byte * option error) := fun σ =>
  let refused (op : string) (e : Errno) :=
    Returned ([], Some (PathError op filename e)) σ in
  match resolve filename with
  | Invalid e => refused "open" e
  | Directory => refused "read" EISDIR
  | Through dir rest => refused "open" (through_error σ dir)
  | Entry key =>
      match files σ !! key with
      | None =>
          if (NAME_MAX <? String.length key)%nat then refused "open" ENAMETOOLONG
          else refused "open" ENOENT
      | Some f =>
          if owner_may_read (Mode f) then Returned (Data f, None) σ
          else refused "open" EACCES
      end
  end.

End ioutil.

(** ** Package fmt *)

Module fmt.

(** The line that [Println] prints for a [[]string]: the elements between
    brackets, then a newline. *)
Definition Sprintln (a : list string) : string :=
  "[" +:+ Strings.Join a " " +:+ "]" +:+ String "010" "".

Definition Println (a : list string) : M unit := modify (print (Sprintln a)).

End fmt.

(** ** Package net/http *)

Record Request : Type := {
  Method : string;
  URL_Path : string;                       (* r.URL.Path *)
  URL_Query : list (string * string);      (* the fields of the query string *)
  Body_Form : list (string * string)       (* the fields of a form body *)
}.

Module http.

Definition StatusOK : Z := 200.

Definition StatusFound : Z := 302.

Definition StatusNotFound : Z := 404.

Definition StatusInternalServerError : Z := 500.

Definition Error (msg : string) (code : Z) : M unit :=
  modify (reply (ErrorReply msg code)).

(** [NotFound] is [Error(w, "404 page not found", StatusNotFound)]. *)
Definition NotFound : M unit := Error "404 page not found" StatusNotFound.

Definition Redirect (url : string) (code : Z) : M unit :=
  modify (reply (RedirectReply url code)).

(** The form of a request: the fields of the body, which is parsed for POST,
    PUT and PATCH only, before those of the query. *)
Definition Form (r : Request) : list (string * string) :=
  (if bool_decide (Method r ∈ ["POST"; "PUT"; "PATCH"]) then Body_Form r else [])
  ++ URL_Query r.

(** [FormValue]: the first value of the field, the empty string without. *)
Definition FormValue (r : Request) (key : string) : string :=
  match list_find (fun kv => kv.1 = key) (Form r) with
  | Some (_, (_, v)) => v
  | None => ""
  end.

(** The status the client gets: that of the first reply; 200 when the
    handler began with the body or wrote nothing. *)
Definition status (w : list Reply) : Z :=
  match w with
  | ErrorReply _ code :: _ => code
  | RedirectReply _ code :: _ => code
  | WriteReply _ :: _ => StatusOK
  | [] => StatusOK
  end.

End http.

(** ** wiki.go *)

Record Page : Type := { Title : string; Body : list byte }.

Definition save (p : Page) : M (option error) :=
  let filename := Title p +:+ ".txt" in
  ioutil.WriteFile filename (Body p) (octal [0; 6; 0; 0]%Z).

Definition loadpage (title : string) : M (option Page * option error) :=
  let filename := title +:+ ".txt" in
  '(body, err) ← ioutil.ReadFile filename;
  match err with
  | Some _ => mret (None, err)
  | None => mret (Some {| Title := title; Body := body |}, err)
  end.

(** [var validPath = regexp.MustCompile("^/(save|edit|view)/([a-zA-Z0-9]+)$")] *)
Definition title_class : list (ascii * ascii) :=
  [("a", "z"); ("A", "Z"); ("0", "9")]%char.

Definition validPath : Regexp :=
  OpConcat OpBeginText
 (OpConcat (OpLiteral "/")
 (OpConcat (OpCapture 1 (OpAlternate (OpLiteral "save")
                        (OpAlternate (OpLiteral "edit") (OpLiteral "view"))))
 (OpConcat (OpLiteral "/")
 (OpConcat (OpCapture 2 (OpPlus (OpCharClass title_class)))
           OpEndText)))).

Definition getTitle (r : Request) : M (string * option error) :=
  let m := FindStringSubmatch validPath (URL_Path r) in
  match m with
  | None =>
      http.NotFound;;
      mret ("", Some (errors.New "invalid page title"))
  | Some m =>
      fmt.Println m;;
      match m !! 2%nat with
      | Some title => mret (title, None)
      | None => panic "runtime error: index out of range"
      end
  end.

Section Templates.

(** [var templates = template.Must(template.ParseFiles("edit.html", "view.html"))].
    The two files are not part of the program text, so the parsed set is a
    parameter: it executes the template of a name on a [*Page] and gives
    the output it wrote and the error it ended with. *)
Variable templates : string -> option Page -> string * option error.

(** [templates.ExecuteTemplate(w, name, data)]: the output goes to the
    response writer, also when the execution ends with an error. *)
Definition ExecuteTemplate (name : string) (data : option Page) : M (option error) :=
  let '(out, err) := templates name data in
  modify (streamed out);;
  mret err.

Definition renderTemplate (tmpl : string) (p : option Page) : M unit :=
  err ← ExecuteTemplate (tmpl +:+ ".html") p;
  match err with
  | Some e =>
      http.Error ("soemthing weird is happening: " +:+ Error e)
                 http.StatusInternalServerError
  | None => mret tt
  end.

Definition viewHandler (r : Request) : M unit :=
  '(title, err) ← getTitle r;
  match err with
  | Some _ => mret tt
  | None =>
      '(p, err) ← loadpage title;
      match err with
      | Some _ => http.Error "could not find page." http.StatusNotFound
      | None => renderTemplate "view" p
      end
  end.

Definition editHandler (r : Request) : M unit :=
  '(title, err) ← getTitle r;
  match err with
  | Some _ => mret tt
  | None =>
      '(p, err) ← loadpage title;
      let p := match err with
               | Some _ => Some {| Title := title; Body := [] |}
               | None => p
               end in
      renderTemplate "edit" p
  end.

Definition saveHandler (r : Request) : M unit :=
  '(title, err) ← getTitle r;
  match err with
  | Some _ => mret tt
  | None =>
      let body := http.FormValue r "body" in
      let p := {| Body := list_byte_of_string body; Title := title |} in
      err ← save p;
      match err with
      | None => http.Redirect ("/view/" +:+ title) http.StatusFound
      | Some e =>
          http.Error ("soemthing weird is happening: " +:+ Error e)
                     http.StatusInternalServerError
      end
  end.

End Templates.

(** ** The vocabulary of the specification *)

(** The three verbs of the first group. *)
Definition verbs : list string := ["save"; "edit"; "view"].

(** A valid title: one or more ASCII letters or digits. *)
Definition valid_title (t : string) : bool :=
  match t with
  | EmptyString => false
  | String _ _ => Strings.all (in_class title_class) t
  end.

Definition path_of (verb title : string) : string := "/" +:+ verb +:+ "/" +:+ title.

(** The anchored grammar [^/(save|edit|view)/([a-zA-Z0-9]+)$], said in
    words: a slash, one of the three verbs, a slash, a valid title, and
    nothing before or after. *)
Definition path_grammar (path : string) : Prop :=
  exists verb title,
    verb ∈ verbs /\ valid_title title = true /\ path = path_of verb title.

(** The letters and digits, one by one. *)
Definition alphanumeric : string :=
  "abcdefghijklmnopqrstuvwxyzABCDEFGHIJKLMNOPQRSTUVWXYZ0123456789".

(** A file that [loadpage] can read once [save] has written it: there is
    none of that name yet, so that [save] creates it, or there is one that
    its owner may read. *)
Definition readable (filename : string) (σ : State) : bool :=
  match files σ !! filename with
  | None => true
  | Some f => owner_may_read (Mode f)
  end.

(** What [ioutil.WriteFile] does with a path: the error it is refused
    with, or the entry it writes and the mode this entry has afterwards. *)
Definition write_target (filename : string) (perm : FileMode) (σ : State)
  : Errno + string * FileMode :=
  match resolve filename with
  | Invalid e => inl e
  | Directory => inl EISDIR
  | Through dir rest =>
      if Strings.all (Ascii.eqb "/") rest then inl EISDIR
      else inl (through_error σ dir)
  | Entry key =>
      match files σ !! key with
      | None =>
          if (NAME_MAX <? String.length key)%nat then inl ENAMETOOLONG
          else inr (key, perm)
      | Some f => if owner_may_write (Mode f) then inr (key, Mode f) else inl EACCES
      end
  end.

(** The persisted layout of the specification: every file of the working
    directory has mode 0600. *)
Definition wiki_store (σ : State) : Prop :=
  forall name f, files σ !! name = Some f -> Mode f = octal [0; 6; 0; 0]%Z.

(** What [loadpage] returns is decided by the entry of the page's file. *)
Definition load_result (title : string) (entry : option File)
  : option Page * option error :=
  match entry with
  | None =>
      (None, Some (PathError "open" (title +:+ ".txt")
                     (if (NAME_MAX <? String.length (title +:+ ".txt"))%nat
                      then ENAMETOOLONG else ENOENT)))
  | Some f =>
      if owner_may_read (Mode f)
      then (Some {| Title := title; Body := Data f |}, None)
      else (None, Some (PathError "open" (title +:+ ".txt") EACCES))
  end.

(** The registers of a match of [validPath]: the whole path, the verb and
    the title. *)
Definition validPath_caps (title : string) : caps :=
  [Some (0, 6 + String.length title)%nat; Some (1, 5)%nat;
   Some (6, 6 + String.length title)%nat].

(** The end of the pattern, from the title on: group 2 and [$]. *)
Definition title_tail (rest : string) : option caps :=
  run (OpConcat (OpCapture 2 (OpPlus (OpCharClass title_class))) OpEndText)
      6 rest [None; Some (1, 5)%nat; None]
      (fun p _ c => Some (<[0%nat := Some (0, p)%nat]> c)).

(** A template set to run the handlers on: the view shows the title and
    the body, the edit form shows the title; no other template is defined. *)
Definition demo_templates (name : string) (p : option Page) : string * option error :=
  match p with
  | Some p =>
      if String.eqb name "view.html" then
        ("<h1>" +:+ Title p +:+ "</h1>" +:+ string_of_list_byte (Body p), None)
      else if String.eqb name "edit.html" then
        ("<form>" +:+ Title p +:+ "</form>", None)
      else ("", Some (errorString ("html/template: " +:+ name +:+ " is undefined")))
  | None => ("", Some (errorString "nil data"))
  end.

(** A working directory with nothing in it, before any output. *)
Definition empty_state : State := {| files := ∅; stdout := ""; response := [] |}.

(** A working directory that holds one file. *)
Definition one_file (name : string) (mode : FileMode) (content : string) : State :=
  {| files := {[name := {| Mode := mode; Data := list_byte_of_string content |}]};
     stdout := ""; response := [] |}.

(** * Part II: what the program does *)

(** ** Strings *)

Lemma app_nil_l (s : string) : "" +:+ s = s.
Proof. reflexivity. Qed.

Lemma app_cons (c : ascii) (s1 s2 : string) :
  String c s1 +:+ s2 = String c (s1 +:+ s2).
Proof. reflexivity. Qed.

Lemma length_nil : String.length "" = 0%nat.
Proof. reflexivity. Qed.

Lemma length_cons (c : ascii) (s : string) :
  String.length (String c s) = S (String.length s).
Proof. reflexivity. Qed.

Lemma length_app (s1 s2 : string) :
  String.length (s1 +:+ s2) = (String.length s1 + String.length s2)%nat.
Proof.
  induction s1 as [|c s1 IH]; [reflexivity|].
  rewrite app_cons, !length_cons, IH. reflexivity.
Qed.

Lemma app_empty_r (s : string) : s +:+ "" = s.
Proof.
  induction s as [|c s IH]; [reflexivity|]. rewrite app_cons, IH. reflexivity.
Qed.

Lemma app_inj_r (s1 s2 suffix : string) : s1 +:+ suffix = s2 +:+ suffix -> s1 = s2.
Proof.
  revert s2. induction s1 as [|c s1 IH]; intros [|d s2] H.
  - reflexivity.
  - apply (f_equal String.length) in H.
    rewrite app_nil_l, app_cons, length_cons, length_app in H. lia.
  - apply (f_equal String.length) in H.
    rewrite app_nil_l, app_cons, length_cons, length_app in H. lia.
  - rewrite !app_cons in H. injection H as -> H. f_equal. apply IH, H.
Qed.

Lemma substring_all (s : string) : substring 0 (String.length s) s = s.
Proof. induction s as [|c s IH]; simpl; [|rewrite IH]; reflexivity. Qed.

Lemma CutPrefix_Some (s prefix rest : string) :
  Strings.CutPrefix s prefix = Some rest <-> s = prefix +:+ rest.
Proof.
  revert s. induction prefix as [|c p IH]; intros s; simpl.
  - rewrite app_nil_l. split; [intros [= ->]|intros ->]; reflexivity.
  - rewrite app_cons. destruct s as [|d s'].
    + split; [discriminate|intros [=]].
    + destruct (Ascii.eqb_spec c d) as [->|Hne].
      * rewrite IH. split; [intros ->|intros [= ->]]; reflexivity.
      * split; [discriminate|intros [= Hcd _]; congruence].
Qed.

Lemma all_impl (f g : ascii -> bool) (s : string) :
  (forall c, f c = true -> g c = true) ->
  Strings.all f s = true -> Strings.all g s = true.
Proof.
  intros Hfg. induction s as [|c s IH]; simpl; [reflexivity|].
  intros [Hc Hs]%andb_prop. rewrite (Hfg _ Hc), (IH Hs). reflexivity.
Qed.

(** ** The matcher on a class under [+] *)

Lemma plus_loop_O (step : matcher) (k : cont) pos rest cs :
  plus_loop step k 0 pos rest cs = step pos rest cs k.
Proof. reflexivity. Qed.

Lemma plus_loop_S (step : matcher) (k : cont) fuel pos rest cs :
  plus_loop step k (S fuel) pos rest cs =
  step pos rest cs (fun p r c =>
    if (pos <? p)%nat then
      match plus_loop step k fuel p r c with
      | Some m => Some m
      | None => k p r c
      end
    else k p r c).
Proof. reflexivity. Qed.

Lemma run_class_cons ranges pos c rest cs (k : cont) :
  run (OpCharClass ranges) pos (String c rest) cs k =
  if in_class ranges c then k (S pos) rest cs else None.
Proof. reflexivity. Qed.

Lemma run_class_nil ranges pos cs (k : cont) :
  run (OpCharClass ranges) pos "" cs k = None.
Proof. reflexivity. Qed.

Section PlusOfClass.

Variable ranges : list (ascii * ascii).
Variable k : cont.

(** On a run of class bytes that ends the input, the greedy loop hands the
    whole run to the continuation first. *)
Lemma plus_class_greedy (t : string) :
  forall (fuel pos : nat) (cs m : caps),
    t <> "" ->
    Strings.all (in_class ranges) t = true ->
    (String.length t <= S fuel)%nat ->
    k (pos + String.length t)%nat "" cs = Some m ->
    plus_loop (run (OpCharClass ranges)) k fuel pos t cs = Some m.
Proof.
  induction t as [|c t IH]; intros fuel pos cs m Hne Hall Hlen Hk; [congruence|].
  simpl in Hall. apply andb_prop in Hall as [Hc Hall].
  rewrite length_cons in Hlen, Hk.
  assert (Hlt : (pos <? S pos)%nat = true) by (apply Nat.ltb_lt; lia).
  destruct t as [|d t].
  - rewrite length_nil in Hk.
    replace (pos + 1)%nat with (S pos) in Hk by lia.
    destruct fuel as [|fuel].
    + rewrite plus_loop_O, run_class_cons, Hc. exact Hk.
    + rewrite plus_loop_S, run_class_cons, Hc, Hlt.
      destruct fuel; [rewrite plus_loop_O|rewrite plus_loop_S];
        rewrite run_class_nil; exact Hk.
  - rewrite length_cons in Hlen.
    destruct fuel as [|fuel]; [lia|].
    rewrite plus_loop_S, run_class_cons, Hc, Hlt.
    rewrite (IH fuel (S pos) cs m); [reflexivity|discriminate|exact Hall| |].
    + rewrite length_cons. lia.
    + rewrite <- Hk. f_equal. lia.
Qed.

(** Whatever the loop returns, it got from the continuation after a
    non-empty run of class bytes. *)
Lemma plus_class_inv (fuel : nat) :
  forall (pos : nat) (rest : string) (cs m : caps),
    plus_loop (run (OpCharClass ranges)) k fuel pos rest cs = Some m ->
    exists t rest',
      rest = t +:+ rest' /\ t <> "" /\
      Strings.all (in_class ranges) t = true /\
      k (pos + String.length t)%nat rest' cs = Some m.
Proof.
  induction fuel as [|fuel IH]; intros pos rest cs m H.
  - rewrite plus_loop_O in H.
    destruct rest as [|c rest]; [discriminate|]. rewrite run_class_cons in H.
    destruct (in_class ranges c) eqn:Hc; [|discriminate].
    exists (String c ""), rest. simpl. rewrite Hc.
    repeat split; [discriminate|]. rewrite <- H. f_equal. lia.
  - rewrite plus_loop_S in H.
    destruct rest as [|c rest]; [discriminate|]. rewrite run_class_cons in H.
    destruct (in_class ranges c) eqn:Hc; [|discriminate].
    replace (pos <? S pos)%nat with true in H by (symmetry; apply Nat.ltb_lt; lia).
    destruct (plus_loop (run (OpCharClass ranges)) k fuel (S pos) rest cs)
      as [m'|] eqn:Hloop.
    + injection H as ->. apply IH in Hloop as (t & rest' & -> & _ & Hall & Hk).
      exists (String c t), rest'. simpl. rewrite Hc, Hall.
      repeat split; [discriminate|]. rewrite <- Hk. f_equal. lia.
    + exists (String c ""), rest. simpl. rewrite Hc.
      repeat split; [discriminate|]. rewrite <- H. f_equal. lia.
Qed.

End PlusOfClass.

(** ** The pattern [validPath] *)

Example validPath_source :
  Regexp.text validPath = "^/(save|edit|view)/([a-zA-Z0-9]+)$".
Proof. reflexivity. Qed.

(** The class of the title group holds the ASCII letters and digits, and
    no other byte. *)
Lemma title_class_alphanumeric (c : ascii) :
  in_class title_class c = existsb (Ascii.eqb c) (list_ascii_of_string alphanumeric).
Proof.
  destruct c as [b0 b1 b2 b3 b4 b5 b6 b7].
  destruct b0, b1, b2, b3, b4, b5, b6, b7; vm_compute; reflexivity.
Qed.

Lemma title_class_no_separator (c : ascii) :
  in_class title_class c = true ->
  negb (Ascii.eqb c "." || Ascii.eqb c "/") = true.
Proof.
  destruct c as [b0 b1 b2 b3 b4 b5 b6 b7].
  destruct b0, b1, b2, b3, b4, b5, b6, b7; vm_compute; auto.
Qed.

Lemma valid_title_nonempty t : valid_title t = true -> t <> "".
Proof. destruct t; discriminate. Qed.

Lemma valid_title_all t :
  valid_title t = true -> Strings.all (in_class title_class) t = true.
Proof. destruct t; [discriminate|intros H; exact H]. Qed.

Lemma valid_title_intro t :
  t <> "" -> Strings.all (in_class title_class) t = true -> valid_title t = true.
Proof. destruct t; [congruence|intros _ H; exact H]. Qed.

Local Arguments run !re pos rest cs k /.

Lemma run_validPath_nonzero pos rest cs k :
  pos <> 0%nat -> run validPath pos rest cs k = None.
Proof. intros Hpos. destruct pos; [congruence|reflexivity]. Qed.

Lemma search_validPath_S ncap rest :
  forall pos, search validPath ncap (S pos) rest = None.
Proof.
  induction rest as [|c rest IH]; intros pos; cbn [search];
    rewrite run_validPath_nonzero by discriminate; [reflexivity|apply IH].
Qed.

Lemma verbs_length verb : verb ∈ verbs -> String.length verb = 4%nat.
Proof.
  unfold verbs. rewrite !elem_of_cons.
  intros [->|[->|[->|Hnil]]]; [reflexivity..|by apply elem_of_nil in Hnil].
Qed.

Lemma search_validPath_match verb title :
  verb ∈ verbs -> valid_title title = true ->
  search validPath 3 0 (path_of verb title) = Some (validPath_caps title).
Proof.
  intros Hverb Hv. pose proof (valid_title_nonempty _ Hv) as Hne.
  apply valid_title_all in Hv.
  unfold verbs in Hverb. rewrite !elem_of_cons in Hverb.
  destruct Hverb as [->|[->|[->|Hnil]]]; [| | |by apply elem_of_nil in Hnil].
  all: unfold path_of, validPath; cbv [String.append]; cbn -[plus_loop].
  all: erewrite plus_class_greedy; [reflexivity|exact Hne|exact Hv|lia|reflexivity].
Qed.

Lemma title_tail_inv rest m :
  title_tail rest = Some m -> valid_title rest = true /\ m = validPath_caps rest.
Proof.
  unfold title_tail. cbn -[plus_loop]. intros H.
  apply plus_class_inv in H as (t & rest' & -> & Hne & Hall & Hk).
  destruct rest' as [|c rest']; [|discriminate]. injection Hk as <-.
  rewrite app_empty_r. split; [apply valid_title_intro; assumption|reflexivity].
Qed.

Lemma verb_branch_inv verb rest m :
  match Strings.CutPrefix rest verb with
  | Some r0 =>
      match Strings.CutPrefix r0 "/" with
      | Some r1 => title_tail r1
      | None => None
      end
  | None => None
  end = Some m ->
  exists title,
    valid_title title = true /\ "/" +:+ rest = path_of verb title /\
    m = validPath_caps title.
Proof.
  intros H.
  destruct (Strings.CutPrefix rest verb) as [r0|] eqn:E0; [|discriminate].
  destruct (Strings.CutPrefix r0 "/") as [r1|] eqn:E1; [|discriminate].
  apply CutPrefix_Some in E0 as ->. apply CutPrefix_Some in E1 as ->.
  apply title_tail_inv in H as [Hv ->]. exists r1. repeat split. exact Hv.
Qed.

Ltac first_some H :=
  match type of H with
  | match ?x with Some _ => _ | None => _ end = Some _ =>
      let E := fresh "E" in destruct x eqn:E; [|try discriminate H]
  end.

Lemma search_validPath_inv path m :
  search validPath 3 0 path = Some m ->
  exists verb title,
    verb ∈ verbs /\ valid_title title = true /\
    path = path_of verb title /\ m = validPath_caps title.
Proof.
  intros H.
  assert (Hrun : run validPath 0 path [None; None; None]
                   (fun p _ c => Some (<[0%nat := Some (0, p)%nat]> c)) = Some m).
  { destruct path as [|c rest]; cbn [search] in H.
    - change (replicate 3 None) with [@None (nat * nat); None; None] in H.
      destruct (run validPath 0 "" _ _); [exact H|discriminate].
    - rewrite search_validPath_S in H.
      change (replicate 3 None) with [@None (nat * nat); None; None] in H.
      destruct (run validPath 0 _ _ _); [exact H|discriminate]. }
  clear H. unfold validPath in Hrun. cbn -[plus_loop Strings.CutPrefix] in Hrun.
  destruct (Strings.CutPrefix path "/") as [r|] eqn:E; [|discriminate].
  apply CutPrefix_Some in E as ->.
  first_some Hrun.
  { injection Hrun as ->. apply verb_branch_inv in E as (title & Hv & Hp & ->).
    exists "save", title. repeat split; [set_solver|exact Hv|exact Hp]. }
  first_some Hrun.
  { injection Hrun as ->. apply verb_branch_inv in E0 as (title & Hv & Hp & ->).
    exists "edit", title. repeat split; [set_solver|exact Hv|exact Hp]. }
  apply verb_branch_inv in Hrun as (title & Hv & Hp & ->).
  exists "view", title. repeat split; [set_solver|exact Hv|exact Hp].
Qed.

Lemma submatch_validPath verb title :
  String.length verb = 4%nat ->
  map (submatch (path_of verb title)) (validPath_caps title) =
  [path_of verb title; verb; title].
Proof.
  intros Hlen. unfold validPath_caps, path_of. cbn [map submatch].
  destruct verb as [|c1 [|c2 [|c3 [|c4 [|c5 verb]]]]]; try discriminate Hlen.
  cbv [String.append]. rewrite Nat.sub_0_r.
  replace (6 + String.length title - 6)%nat with (String.length title) by lia.
  cbn [Nat.add Nat.sub substring]. rewrite substring_all. reflexivity.
Qed.

(** A path of the grammar matches, and its groups are the verb and the
    title. *)
Lemma FindStringSubmatch_validPath verb title :
  verb ∈ verbs -> valid_title title = true ->
  FindStringSubmatch validPath (path_of verb title) =
  Some [path_of verb title; verb; title].
Proof.
  intros Hverb Hv. unfold FindStringSubmatch.
  change (S (NumSubexp validPath)) with 3%nat.
  rewrite (search_validPath_match _ _ Hverb Hv).
  rewrite (submatch_validPath _ _ (verbs_length _ Hverb)). reflexivity.
Qed.

(** Only a path of the grammar matches. *)
Lemma FindStringSubmatch_validPath_inv path m :
  FindStringSubmatch validPath path = Some m ->
  exists verb title,
    verb ∈ verbs /\ valid_title title = true /\
    path = path_of verb title /\ m = [path; verb; title].
Proof.
  unfold FindStringSubmatch. change (S (NumSubexp validPath)) with 3%nat.
  destruct (search validPath 3 0 path) as [cs|] eqn:Hs; [|discriminate].
  intros [= <-].
  apply search_validPath_inv in Hs as (verb & title & Hverb & Hv & -> & ->).
  exists verb, title. repeat split; try assumption.
  apply submatch_validPath, verbs_length, Hverb.
Qed.

Lemma FindStringSubmatch_validPath_None path :
  FindStringSubmatch validPath path = None <-> ~ path_grammar path.
Proof.
  split.
  - intros Hnone (verb & title & Hverb & Hv & ->).
    rewrite (FindStringSubmatch_validPath _ _ Hverb Hv) in Hnone. discriminate.
  - intros Hno.
    destruct (FindStringSubmatch validPath path) as [m|] eqn:Hm; [|reflexivity].
    apply FindStringSubmatch_validPath_inv in Hm as (verb & title & Hverb & Hv & -> & _).
    exfalso. apply Hno. exists verb, title. repeat split; assumption.
Qed.

(** ** Running the monad *)

Lemma bind_Returned {A B : Type} (m : M A) (f : A -> M B) (σ σ' : State) (a : A) :
  m σ = Returned a σ' -> (m ≫= f) σ = f a σ'.
Proof. intros H. unfold mbind, M_bind. rewrite H. reflexivity. Qed.

(** ** The page store *)

Lemma mode_0600 :
  owner_may_write (octal [0; 6; 0; 0]%Z) = true /\
  owner_may_read (octal [0; 6; 0; 0]%Z) = true.
Proof. split; reflexivity. Qed.

Lemma ContainsByte_app (s1 s2 : string) (c : ascii) :
  Strings.ContainsByte (s1 +:+ s2) c =
  Strings.ContainsByte s1 c || Strings.ContainsByte s2 c.
Proof.
  induction s1 as [|d s1 IH]; [reflexivity|].
  rewrite app_cons. simpl. rewrite IH, orb_assoc. reflexivity.
Qed.

Lemma ContainsByte_outside (f : ascii -> bool) (s : string) (c : ascii) :
  Strings.all f s = true -> f c = false -> Strings.ContainsByte s c = false.
Proof.
  intros Hall Hc. induction s as [|d s IH]; [reflexivity|].
  simpl in *. apply andb_prop in Hall as [Hd Hs]. rewrite (IH Hs), orb_false_r.
  destruct (Ascii.eqb_spec c d) as [->|]; congruence.
Qed.

Lemma CutByte_None (s : string) (c : ascii) :
  Strings.ContainsByte s c = false -> Strings.CutByte s c = None.
Proof.
  induction s as [|d s IH]; [reflexivity|]. simpl.
  intros [Hd Hs]%orb_false_elim. rewrite Hd, (IH Hs). reflexivity.
Qed.

Lemma page_file_free_of (title : string) (c : ascii) :
  valid_title title = true ->
  in_class title_class c = false -> Ascii.eqb c "." = false ->
  Ascii.eqb c "t" = false -> Ascii.eqb c "x" = false ->
  Strings.ContainsByte (title +:+ ".txt") c = false.
Proof.
  intros Hv Hc Hdot Ht Hx. rewrite ContainsByte_app.
  rewrite (ContainsByte_outside _ _ _ (valid_title_all _ Hv) Hc).
  simpl. rewrite Hdot, Ht, Hx. reflexivity.
Qed.

(** The file name of a valid title is an entry of the working directory:
    it holds no slash and no zero byte, and it is neither "." nor "..". *)
Lemma resolve_page_file (title : string) :
  valid_title title = true -> resolve (title +:+ ".txt") = Entry (title +:+ ".txt").
Proof.
  intros Hv. unfold resolve.
  rewrite (page_file_free_of title "000" Hv) by reflexivity.
  pose proof (page_file_free_of title "/" Hv eq_refl eq_refl eq_refl eq_refl) as Hslash.
  destruct title as [|c t]; [discriminate|]. rewrite app_cons in *.
  rewrite Hslash. cbn [andb].
  simpl in Hv. apply andb_prop in Hv as [Hc _].
  apply title_class_no_separator in Hc.
  apply negb_true_iff, orb_false_elim in Hc as [Hdot Hsl].
  cbn [skip_leading]. rewrite Hsl, Hdot.
  rewrite (CutByte_None _ _ Hslash). reflexivity.
Qed.

(** [ioutil.WriteFile] in one equation. *)
Lemma WriteFile_eq (filename : string) (data : list byte) (perm : FileMode) (σ : State) :
  ioutil.WriteFile filename data perm σ =
  match write_target filename perm σ with
  | inl e => Returned (Some (PathError "open" filename e)) σ
  | inr (key, mode) =>
      Returned None (set_files <[key := {| Mode := mode; Data := data |}]> σ)
  end.
Proof.
  unfold ioutil.WriteFile, write_target.
  destruct (resolve filename) as [key|dir rest| |e]; try reflexivity.
  - destruct (files σ !! key) as [f|].
    + destruct (owner_may_write (Mode f)); reflexivity.
    + destruct (NAME_MAX <? String.length key)%nat; reflexivity.
  - destruct (Strings.all (Ascii.eqb "/") rest); reflexivity.
Qed.

(** A file that was written can be written again, with the same mode. *)
Lemma write_target_again
  (filename key : string) (perm mode : FileMode) (data : list byte) (σ : State) :
  owner_may_write perm = true ->
  write_target filename perm σ = inr (key, mode) ->
  write_target filename perm
    (set_files <[key := {| Mode := mode; Data := data |}]> σ) = inr (key, mode).
Proof.
  intros Hperm. unfold write_target.
  destruct (resolve filename) as [k|dir rest| |e]; try discriminate.
  - cbn [files set_files]. destruct (files σ !! k) as [f|] eqn:Hf.
    + destruct (owner_may_write (Mode f)) eqn:Hw; [|discriminate].
      intros [= <- <-]. rewrite lookup_insert_eq. cbn [Mode]. rewrite Hw. reflexivity.
    + destruct (NAME_MAX <? String.length k)%nat; [discriminate|].
      intros [= <- <-]. rewrite lookup_insert_eq. cbn [Mode]. rewrite Hperm. reflexivity.
  - destruct (Strings.all (Ascii.eqb "/") rest); discriminate.
Qed.

(** What [save] does, for every page. *)
Lemma save_target (p : Page) (σ : State) :
  save p σ =
  match write_target (Title p +:+ ".txt") (octal [0; 6; 0; 0]%Z) σ with
  | inl e => Returned (Some (PathError "open" (Title p +:+ ".txt") e)) σ
  | inr (key, mode) =>
      Returned None (set_files <[key := {| Mode := mode; Data := Body p |}]> σ)
  end.
Proof. unfold save. apply WriteFile_eq. Qed.

(** What [save] does for a page with a valid title. *)
Lemma save_eq (p : Page) (σ : State) :
  valid_title (Title p) = true ->
  save p σ =
  match files σ !! (Title p +:+ ".txt") with
  | None =>
      if (NAME_MAX <? String.length (Title p +:+ ".txt"))%nat then
        Returned (Some (PathError "open" (Title p +:+ ".txt") ENAMETOOLONG)) σ
      else
        Returned None
          (set_files <[Title p +:+ ".txt" :=
                         {| Mode := octal [0; 6; 0; 0]%Z; Data := Body p |}]> σ)
  | Some f =>
      if owner_may_write (Mode f) then
        Returned None
          (set_files <[Title p +:+ ".txt" := {| Mode := Mode f; Data := Body p |}]> σ)
      else Returned (Some (PathError "open" (Title p +:+ ".txt") EACCES)) σ
  end.
Proof.
  intros Hv. unfold save, ioutil.WriteFile. rewrite (resolve_page_file _ Hv).
  reflexivity.
Qed.

(** [ioutil.ReadFile], and with it [loadpage], looks at the files only. *)
Lemma loadpage_files (title : string) (σ σ2 : State) :
  files σ2 = files σ ->
  loadpage title σ2 =
  match loadpage title σ with
  | Returned a _ => Returned a σ2
  | Panicked v _ => Panicked v σ2
  end.
Proof.
  intros Hfiles. unfold loadpage, mbind, M_bind, ioutil.ReadFile, through_error.
  rewrite Hfiles.
  destruct (resolve (title +:+ ".txt")) as [key|dir rest| |e]; try reflexivity.
  - destruct (files σ !! key) as [f|].
    + destruct (owner_may_read (Mode f)); reflexivity.
    + destruct (NAME_MAX <? String.length key)%nat; reflexivity.
Qed.

Lemma loadpage_eq (title : string) (σ : State) :
  valid_title title = true ->
  loadpage title σ = Returned (load_result title (files σ !! (title +:+ ".txt"))) σ.
Proof.
  intros Hv. unfold loadpage, load_result, mbind, M_bind, ioutil.ReadFile.
  rewrite (resolve_page_file _ Hv).
  destruct (files σ !! (title +:+ ".txt")) as [f|].
  - destruct (owner_may_read (Mode f)); reflexivity.
  - destruct (NAME_MAX <? String.length (title +:+ ".txt"))%nat; reflexivity.
Qed.

(** A load that fails keeps failing whatever is printed in between. *)
Lemma loadpage_fails_print (title s : string) (σ : State) (e : error) :
  loadpage title σ = Returned (None, Some e) σ ->
  loadpage title (print s σ) = Returned (None, Some e) (print s σ).
Proof.
  intros Hload. rewrite (loadpage_files title σ (print s σ) eq_refl), Hload.
  reflexivity.
Qed.

(** The layout of the specification is kept by [save]. *)
Lemma wiki_store_save (p : Page) (σ σ' : State) (err : option error) :
  wiki_store σ -> save p σ = Returned err σ' -> wiki_store σ'.
Proof.
  intros Hstore. rewrite save_target. unfold write_target.
  destruct (resolve (Title p +:+ ".txt")) as [key|dir rest| |e];
    try (intros [= <- <-]; exact Hstore).
  - destruct (files σ !! key) as [f|] eqn:Hf.
    + destruct (owner_may_write (Mode f)); intros [= <- <-]; [|exact Hstore].
      intros name g. cbn [files set_files].
      rewrite lookup_insert. case_decide as Hname.
      * intros [= <-]. exact (Hstore _ _ Hf).
      * apply Hstore.
    + destruct (NAME_MAX <? String.length key)%nat; intros [= <- <-]; [exact Hstore|].
      intros name g. cbn [files set_files].
      rewrite lookup_insert. case_decide as Hname.
      * intros [= <-]. reflexivity.
      * apply Hstore.
  - destruct (Strings.all (Ascii.eqb "/") rest); intros [= <- <-]; exact Hstore.
Qed.

Lemma wiki_store_empty : wiki_store empty_state.
Proof. intros name f. cbn [files empty_state]. rewrite lookup_empty. discriminate. Qed.

(** ** Title extraction *)

Lemma getTitle_valid (verb title : string) (r : Request) (σ : State) :
  verb ∈ verbs -> valid_title title = true -> URL_Path r = path_of verb title ->
  getTitle r σ =
  Returned (title, None) (print (fmt.Sprintln [path_of verb title; verb; title]) σ).
Proof.
  intros Hverb Hv Hpath. unfold getTitle.
  rewrite Hpath, (FindStringSubmatch_validPath _ _ Hverb Hv). reflexivity.
Qed.

Lemma getTitle_invalid (r : Request) (σ : State) :
  ~ path_grammar (URL_Path r) ->
  getTitle r σ =
  Returned ("", Some (errors.New "invalid page title"))
           (reply (ErrorReply "404 page not found" http.StatusNotFound) σ).
Proof.
  intros Hno. apply FindStringSubmatch_validPath_None in Hno.
  unfold getTitle. rewrite Hno. reflexivity.
Qed.

(** ** The claims *)

(** C1, as stated: saving a page and loading its title gives the body back,
    whatever the store holds. It fails on a file that its owner may not
    write: [save] returns the error of the refused write, and [loadpage]
    then yields the old content. It fails as well on a file that its owner
    may write but not read: [save] succeeds and [loadpage] returns an
    error. And it fails for a valid title of 252 bytes, whose file name is
    longer than a name may be: [save] returns an error and creates
    nothing. *)
Lemma round_trip_refused :
  let σ := one_file "Foo.txt" (octal [0; 4; 0; 0]%Z) "old" in
  let σw := one_file "Foo.txt" (octal [0; 2; 0; 0]%Z) "old" in
  let p := {| Title := "Foo"; Body := list_byte_of_string "new" |} in
  let long := Strings.Repeat "a" 252 in
  valid_title "Foo" = true /\
  save p σ = Returned (Some (PathError "open" "Foo.txt" EACCES)) σ /\
  (save p;; loadpage "Foo") σ =
    Returned (Some {| Title := "Foo"; Body := list_byte_of_string "old" |}, None) σ /\
  ~ (exists q σ', (save p;; loadpage "Foo") σ = Returned (Some q, None) σ' /\
                  Body q = Body p) /\
  (save p;; loadpage "Foo") σw =
    Returned (None, Some (PathError "open" "Foo.txt" EACCES))
             (one_file "Foo.txt" (octal [0; 2; 0; 0]%Z) "new") /\
  valid_title long = true /\
  save {| Title := long; Body := list_byte_of_string "new" |} empty_state =
    Returned (Some (PathError "open" (long +:+ ".txt") ENAMETOOLONG)) empty_state.
Proof.
  cbn zeta. split; [reflexivity|]. split; [vm_compute; reflexivity|].
  split; [vm_compute; reflexivity|].
  split; [|split; [vm_compute; reflexivity|split; vm_compute; reflexivity]].
  intros (q & σ' & Hrun & Hbody). vm_compute in Hrun.
  injection Hrun as <- _. vm_compute in Hbody. discriminate.
Qed.

(** C1, amended: for every valid title t and every byte sequence B,
    whenever save of Page{Title: t, Body: B} returns no error, and the file
    t.txt was not there before the save or was one that its owner may
    read, load(t) after the save succeeds and yields the page with title t
    and body B. *)
Theorem save_then_load (title : string) (B : list byte) (σ σ' : State) :
  valid_title title = true ->
  save {| Title := title; Body := B |} σ = Returned None σ' ->
  readable (title +:+ ".txt") σ = true ->
  loadpage title σ' = Returned (Some {| Title := title; Body := B |}, None) σ'.
Proof.
  intros Hv Hsave Hread. rewrite save_eq in Hsave by exact Hv.
  cbn [Title Body] in Hsave. unfold readable in Hread.
  rewrite (loadpage_eq _ _ Hv).
  destruct (files σ !! (title +:+ ".txt")) as [f|] eqn:Hf.
  - destruct (owner_may_write (Mode f)); [|discriminate].
    injection Hsave as <-. cbn [files set_files]. rewrite lookup_insert_eq.
    cbn [load_result Mode Data]. rewrite Hread. reflexivity.
  - destruct (NAME_MAX <? String.length (title +:+ ".txt"))%nat; [discriminate|].
    injection Hsave as <-. cbn [files set_files]. rewrite lookup_insert_eq.
    cbn [load_result Mode Data]. rewrite (proj2 mode_0600). reflexivity.
Qed.

Lemma save_then_load_witness :
  let σ := one_file "Foo.txt" (octal [0; 6; 4; 4]%Z) "old" in
  let σ' := one_file "Foo.txt" (octal [0; 6; 4; 4]%Z) "new" in
  valid_title "Foo" = true /\
  save {| Title := "Foo"; Body := list_byte_of_string "new" |} σ = Returned None σ' /\
  readable ("Foo" +:+ ".txt") σ = true /\
  loadpage "Foo" σ' =
    Returned (Some {| Title := "Foo"; Body := list_byte_of_string "new" |}, None) σ'.
Proof.
  assert (Hsave : save {| Title := "Foo"; Body := list_byte_of_string "new" |}
                    (one_file "Foo.txt" (octal [0; 6; 4; 4]%Z) "old") =
                  Returned None (one_file "Foo.txt" (octal [0; 6; 4; 4]%Z) "new"))
    by (vm_compute; reflexivity).
  split; [reflexivity|]. split; [exact Hsave|]. split; [reflexivity|].
  exact (save_then_load "Foo" (list_byte_of_string "new") _ _
           eq_refl Hsave eq_refl).
Defined.

(** C2: a request path outside the grammar
    [^/(save|edit|view)/([a-zA-Z0-9]+)$] makes title extraction fail with
    the reply 404, and each of the three handlers stops there: nothing is
    printed, no file is read or written, no template is executed. On a
    fresh response writer the status is 404. *)
Theorem invalid_path_is_404
  (templates : string -> option Page -> string * option error)
  (r : Request) (σ : State) :
  ~ path_grammar (URL_Path r) ->
  let σ404 := reply (ErrorReply "404 page not found" http.StatusNotFound) σ in
  getTitle r σ = Returned ("", Some (errors.New "invalid page title")) σ404 /\
  viewHandler templates r σ = Returned tt σ404 /\
  editHandler templates r σ = Returned tt σ404 /\
  saveHandler r σ = Returned tt σ404 /\
  (response σ = [] -> http.status (response σ404) = 404%Z).
Proof.
  intros Hno σ404. pose proof (getTitle_invalid r σ Hno) as Hget.
  split; [exact Hget|].
  unfold viewHandler, editHandler, saveHandler.
  rewrite !(bind_Returned _ _ _ _ _ Hget).
  repeat split. intros Hfresh. subst σ404. cbn [response reply].
  rewrite Hfresh. reflexivity.
Qed.

Lemma invalid_path_is_404_witness :
  let r := {| Method := "GET"; URL_Path := "/view/../etc";
              URL_Query := []; Body_Form := [] |} in
  let σ404 := {| files := ∅; stdout := "";
                 response := [ErrorReply "404 page not found" 404] |} in
  ~ path_grammar "/view/../etc" /\
  getTitle r empty_state = Returned ("", Some (errorString "invalid page title")) σ404 /\
  viewHandler demo_templates r empty_state = Returned tt σ404 /\
  editHandler demo_templates r empty_state = Returned tt σ404 /\
  saveHandler r empty_state = Returned tt σ404 /\
  (@nil Reply = [] -> http.status (response σ404) = 404%Z).
Proof.
  assert (Hno : ~ path_grammar "/view/../etc")
    by (apply FindStringSubmatch_validPath_None; reflexivity).
  split; [exact Hno|].
  exact (invalid_path_is_404 demo_templates
           {| Method := "GET"; URL_Path := "/view/../etc";
              URL_Query := []; Body_Form := [] |} empty_state Hno).
Defined.

(** The paths that the specification lists as invalid are outside the
    grammar. *)
Lemma listed_paths_outside_grammar :
  Forall (fun path => ~ path_grammar path)
         ["/view/../etc"; "/view/"; "/delete/abc"; "/view/ab c"; "/view/bad.title"].
Proof.
  repeat constructor; apply FindStringSubmatch_validPath_None; reflexivity.
Qed.

(** C3: for every title of one or more ASCII letters and digits and every
    verb among view, edit and save, title extraction on the path
    "/" + verb + "/" + title succeeds and returns that title, the second
    group of the match (after printing the match). *)
Theorem getTitle_returns_title (verb title : string) (r : Request) (σ : State) :
  verb ∈ verbs ->
  valid_title title = true ->
  URL_Path r = "/" +:+ verb +:+ "/" +:+ title ->
  getTitle r σ =
  Returned (title, None)
           (print (fmt.Sprintln ["/" +:+ verb +:+ "/" +:+ title; verb; title]) σ) /\
  FindStringSubmatch validPath (URL_Path r) = Some [URL_Path r; verb; title].
Proof.
  intros Hverb Hv Hpath. split; [apply getTitle_valid; assumption|].
  rewrite Hpath. apply FindStringSubmatch_validPath; assumption.
Qed.

Lemma getTitle_returns_title_witness :
  let r := {| Method := "GET"; URL_Path := "/edit/aZ09";
              URL_Query := []; Body_Form := [] |} in
  "edit" ∈ verbs /\ valid_title "aZ09" = true /\
  URL_Path r = "/" +:+ "edit" +:+ "/" +:+ "aZ09" /\
  getTitle r empty_state =
  Returned ("aZ09", None)
           (print (fmt.Sprintln ["/" +:+ "edit" +:+ "/" +:+ "aZ09"; "edit"; "aZ09"])
                  empty_state) /\
  FindStringSubmatch validPath (URL_Path r) = Some [URL_Path r; "edit"; "aZ09"].
Proof.
  assert (Hverb : "edit" ∈ verbs) by (unfold verbs; repeat constructor).
  split; [exact Hverb|]. split; [reflexivity|]. split; [reflexivity|].
  exact (getTitle_returns_title "edit" "aZ09"
           {| Method := "GET"; URL_Path := "/edit/aZ09";
              URL_Query := []; Body_Form := [] |} empty_state
           Hverb eq_refl eq_refl).
Defined.

(** C4, as stated: after save(p), the file p.Title + ".txt" holds p.Body
    and has permission mode 0600. It fails on a file that is already there
    with another mode: the content is replaced, the mode 0644 stays. *)
Lemma save_keeps_mode_of_existing_file :
  let σ := one_file "Foo.txt" (octal [0; 6; 4; 4]%Z) "old" in
  let p := {| Title := "Foo"; Body := list_byte_of_string "new" |} in
  save p σ = Returned None (one_file "Foo.txt" (octal [0; 6; 4; 4]%Z) "new") /\
  ~ (exists σ', save p σ = Returned None σ' /\
                files σ' !! "Foo.txt" =
                Some {| Mode := octal [0; 6; 0; 0]%Z; Data := Body p |}).
Proof.
  cbn zeta. split; [vm_compute; reflexivity|].
  intros (σ' & Hsave & Hfile). vm_compute in Hsave. injection Hsave as <-.
  vm_compute in Hfile. discriminate.
Qed.

(** C4, amended: for every Page p with a valid title, save(p) is the write
    of p.Body to the file named p.Title + ".txt" with permission 0600, and
    returns the error of that write, or nil. When it returns nil the file
    holds p.Body byte for byte; its mode is 0600 if the save created it,
    and the mode it had before if it was there. No other file, nothing
    printed and nothing of the response is changed by save, whether it
    returns an error or not. *)
Theorem save_writes_body (p : Page) (σ : State) :
  valid_title (Title p) = true ->
  let filename := Title p +:+ ".txt" in
  exists err σ',
    save p σ = Returned err σ' /\
    ioutil.WriteFile filename (Body p) (octal [0; 6; 0; 0]%Z) σ = Returned err σ' /\
    stdout σ' = stdout σ /\ response σ' = response σ /\
    (forall name, name <> filename -> files σ' !! name = files σ !! name) /\
    match err with
    | None =>
        exists f,
          files σ' !! filename = Some f /\ Data f = Body p /\
          Mode f = match files σ !! filename with
                   | Some g => Mode g
                   | None => octal [0; 6; 0; 0]%Z
                   end
    | Some _ => True
    end.
Proof.
  intros Hv filename. change (ioutil.WriteFile filename (Body p) _ σ) with (save p σ).
  rewrite (save_eq p σ Hv). fold filename.
  destruct (files σ !! filename) as [g|];
    [destruct (owner_may_write (Mode g))
    |destruct (NAME_MAX <? String.length filename)%nat];
    eexists _, _; (split; [reflexivity|]); (split; [reflexivity|]);
    repeat split; eauto.
  all: try (intros name Hname; cbn [files set_files];
            apply lookup_insert_ne; congruence).
  all: eexists; cbn [files set_files]; rewrite lookup_insert_eq; repeat split.
Qed.

Lemma save_writes_body_witness :
  let σ := one_file "Foo.txt" (octal [0; 6; 4; 4]%Z) "old" in
  let p := {| Title := "Foo"; Body := list_byte_of_string "new" |} in
  valid_title (Title p) = true /\
  exists err σ',
    save p σ = Returned err σ' /\
    ioutil.WriteFile "Foo.txt" (Body p) (octal [0; 6; 0; 0]%Z) σ = Returned err σ' /\
    stdout σ' = stdout σ /\ response σ' = response σ /\
    (forall name, name <> "Foo.txt" -> files σ' !! name = files σ !! name) /\
    match err with
    | None =>
        exists f,
          files σ' !! "Foo.txt" = Some f /\ Data f = Body p /\
          Mode f = match files σ !! "Foo.txt" with
                   | Some g => Mode g
                   | None => octal [0; 6; 0; 0]%Z
                   end
    | Some _ => True
    end.
Proof.
  split; [reflexivity|].
  exact (save_writes_body {| Title := "Foo"; Body := list_byte_of_string "new" |}
           (one_file "Foo.txt" (octal [0; 6; 4; 4]%Z) "old") eq_refl).
Defined.

(** C5: for every valid title whose page does not load, viewHandler replies
    404 with the text "could not find page." and executes no template: the
    outcome is the same for every template set, and the response writer
    gets that one reply. *)
Theorem viewHandler_page_not_found
  (templates : string -> option Page -> string * option error)
  (verb title : string) (r : Request) (σ : State) (e : error) :
  verb ∈ verbs ->
  valid_title title = true ->
  URL_Path r = path_of verb title ->
  loadpage title σ = Returned (None, Some e) σ ->
  let σ' := reply (ErrorReply "could not find page." http.StatusNotFound)
                  (print (fmt.Sprintln [path_of verb title; verb; title]) σ) in
  viewHandler templates r σ = Returned tt σ' /\
  response σ' = (response σ ++ [ErrorReply "could not find page." 404%Z])%list /\
  files σ' = files σ /\
  (response σ = [] -> http.status (response σ') = 404%Z).
Proof.
  intros Hverb Hv Hpath Hload σ'. split; [|repeat split].
  - unfold viewHandler.
    rewrite (bind_Returned _ _ _ _ _ (getTitle_valid _ _ _ σ Hverb Hv Hpath)).
    cbn beta iota.
    rewrite (bind_Returned _ _ _ _ _ (loadpage_fails_print _ _ _ _ Hload)).
    reflexivity.
  - intros Hfresh. subst σ'. cbn [response reply print]. rewrite Hfresh. reflexivity.
Qed.

Lemma viewHandler_page_not_found_witness :
  let r := {| Method := "GET"; URL_Path := "/view/Missing";
              URL_Query := []; Body_Form := [] |} in
  loadpage "Missing" empty_state =
    Returned (None, Some (PathError "open" "Missing.txt" ENOENT)) empty_state /\
  viewHandler demo_templates r empty_state =
    Returned tt {| files := ∅;
                   stdout := fmt.Sprintln ["/view/Missing"; "view"; "Missing"];
                   response := [ErrorReply "could not find page." 404] |}.
Proof.
  split; [reflexivity|].
  assert (Hverb : "view" ∈ verbs) by (unfold verbs; repeat constructor).
  exact (proj1 (viewHandler_page_not_found demo_templates "view" "Missing"
           {| Method := "GET"; URL_Path := "/view/Missing";
              URL_Query := []; Body_Form := [] |} empty_state
           (PathError "open" "Missing.txt" ENOENT)
           Hverb eq_refl eq_refl eq_refl)).
Defined.

(** C6: for every valid title whose page does not load, editHandler puts
    the Page with that title and an empty body in its place and renders
    the "edit" template with it; the failed load is not reported to the
    client: the handler does what rendering that page does, so that the
    response is the output of the template, followed by an error reply
    only when the execution of the template itself ended with an error. *)
Theorem editHandler_new_page
  (templates : string -> option Page -> string * option error)
  (verb title : string) (r : Request) (σ : State) (e : error) :
  verb ∈ verbs ->
  valid_title title = true ->
  URL_Path r = path_of verb title ->
  loadpage title σ = Returned (None, Some e) σ ->
  let p := {| Title := title; Body := [] |} in
  let σ1 := print (fmt.Sprintln [path_of verb title; verb; title]) σ in
  editHandler templates r σ = renderTemplate templates "edit" (Some p) σ1 /\
  match templates "edit.html" (Some p) with
  | (out, None) => editHandler templates r σ = Returned tt (streamed out σ1)
  | (out, Some e') =>
      editHandler templates r σ =
      Returned tt (reply (ErrorReply ("soemthing weird is happening: " +:+ Error e')
                                     500%Z)
                         (streamed out σ1))
  end.
Proof.
  intros Hverb Hv Hpath Hload p σ1.
  assert (Hedit : editHandler templates r σ =
                  renderTemplate templates "edit" (Some p) σ1).
  { unfold editHandler.
    rewrite (bind_Returned _ _ _ _ _ (getTitle_valid _ _ _ σ Hverb Hv Hpath)).
    cbn beta iota.
    rewrite (bind_Returned _ _ _ _ _ (loadpage_fails_print _ _ _ _ Hload)).
    reflexivity. }
  split; [exact Hedit|]. rewrite Hedit.
  unfold renderTemplate, ExecuteTemplate, mbind, M_bind.
  change ("edit" +:+ ".html") with "edit.html".
  destruct (templates "edit.html" (Some p)) as [out [e'|]]; reflexivity.
Qed.

Lemma editHandler_new_page_witness :
  let r := {| Method := "GET"; URL_Path := "/edit/NewPage";
              URL_Query := []; Body_Form := [] |} in
  loadpage "NewPage" empty_state =
    Returned (None, Some (PathError "open" "NewPage.txt" ENOENT)) empty_state /\
  editHandler demo_templates r empty_state =
    Returned tt {| files := ∅;
                   stdout := fmt.Sprintln ["/edit/NewPage"; "edit"; "NewPage"];
                   response := [WriteReply "<form>NewPage</form>"] |}.
Proof.
  split; [reflexivity|].
  assert (Hverb : "edit" ∈ verbs) by (unfold verbs; repeat constructor).
  exact (proj2 (editHandler_new_page demo_templates "edit" "NewPage"
           {| Method := "GET"; URL_Path := "/edit/NewPage";
              URL_Query := []; Body_Form := [] |} empty_state
           (PathError "open" "NewPage.txt" ENOENT)
           Hverb eq_refl eq_refl eq_refl)).
Defined.

(** A field that the form does not have reads as the empty string. *)
Lemma FormValue_missing (r : Request) (key : string) :
  Forall (fun kv => kv.1 <> key) (http.Form r) -> http.FormValue r key = "".
Proof.
  intros Hnone. unfold http.FormValue.
  destruct (list_find (fun kv => kv.1 = key) (http.Form r)) as [[i [k v]]|] eqn:Hfind;
    [|reflexivity].
  apply list_find_Some in Hfind as (Hi & Hk & _).
  rewrite Forall_forall in Hnone. exfalso.
  apply (Hnone (k, v)); [|exact Hk].
  apply list_elem_of_lookup. exists i. exact Hi.
Qed.

(** What saveHandler does once the title is extracted. *)
Lemma saveHandler_eq (verb title : string) (r : Request) (σ : State) :
  verb ∈ verbs -> valid_title title = true -> URL_Path r = path_of verb title ->
  saveHandler r σ =
  match save {| Title := title;
                Body := list_byte_of_string (http.FormValue r "body") |}
             (print (fmt.Sprintln [path_of verb title; verb; title]) σ) with
  | Returned None σ2 =>
      Returned tt (reply (RedirectReply ("/view/" +:+ title) http.StatusFound) σ2)
  | Returned (Some e) σ2 =>
      Returned tt (reply (ErrorReply ("soemthing weird is happening: " +:+ Error e)
                                     http.StatusInternalServerError) σ2)
  | Panicked v σ2 => Panicked v σ2
  end.
Proof.
  intros Hverb Hv Hpath. unfold saveHandler.
  rewrite (bind_Returned _ _ _ _ _ (getTitle_valid _ _ _ σ Hverb Hv Hpath)).
  cbn beta iota zeta. unfold mbind, M_bind.
  destruct (save _ _) as [[e|] σ2|v σ2]; reflexivity.
Qed.

(** [save] returns: it never panics. *)
Lemma save_returns (p : Page) (σ : State) :
  exists err σ', save p σ = Returned err σ'.
Proof.
  rewrite save_target.
  destruct (write_target _ _ σ) as [e|[key mode]]; eexists _, _; reflexivity.
Qed.

(** C7: for every valid title, saveHandler reads the form field "body" (the
    empty string when the form has no such field), saves the Page of that
    title and body, and then replies: 302 with the location /view/<title>
    when save returned no error, 500 with a text made from the error when
    it returned one. *)
Theorem saveHandler_saves_and_replies
  (verb title : string) (r : Request) (σ : State) :
  verb ∈ verbs ->
  valid_title title = true ->
  URL_Path r = path_of verb title ->
  let p := {| Title := title;
              Body := list_byte_of_string (http.FormValue r "body") |} in
  match save p (print (fmt.Sprintln [path_of verb title; verb; title]) σ) with
  | Returned None σ2 =>
      saveHandler r σ =
      Returned tt (reply (RedirectReply ("/view/" +:+ title) 302%Z) σ2)
  | Returned (Some e) σ2 =>
      saveHandler r σ =
      Returned tt (reply (ErrorReply ("soemthing weird is happening: " +:+ Error e)
                                     500%Z) σ2)
  | Panicked _ _ => False
  end /\
  (Forall (fun kv => kv.1 <> "body") (http.Form r) -> Body p = []).
Proof.
  intros Hverb Hv Hpath p. split.
  - rewrite (saveHandler_eq _ _ _ σ Hverb Hv Hpath). fold p.
    destruct (save_returns p (print (fmt.Sprintln [path_of verb title; verb; title]) σ))
      as ([e|] & σ2 & Hsave); rewrite Hsave; reflexivity.
  - intros Hnone. cbn [Body p]. rewrite (FormValue_missing _ _ Hnone). reflexivity.
Qed.

Lemma saveHandler_saves_and_replies_witness :
  let post := {| Method := "POST"; URL_Path := "/save/Foo";
                 URL_Query := []; Body_Form := [("body", "bar")] |} in
  let bare := {| Method := "POST"; URL_Path := "/save/Foo";
                 URL_Query := []; Body_Form := [] |} in
  let line := fmt.Sprintln ["/save/Foo"; "save"; "Foo"] in
  saveHandler post empty_state =
    Returned tt
      {| files := {["Foo.txt" := {| Mode := octal [0; 6; 0; 0]%Z;
                                    Data := list_byte_of_string "bar" |}]};
         stdout := line;
         response := [RedirectReply "/view/Foo" 302] |} /\
  saveHandler post (one_file "Foo.txt" (octal [0; 4; 0; 0]%Z) "old") =
    Returned tt
      {| files := {["Foo.txt" := {| Mode := octal [0; 4; 0; 0]%Z;
                                    Data := list_byte_of_string "old" |}]};
         stdout := line;
         response :=
           [ErrorReply
              "soemthing weird is happening: open Foo.txt: permission denied" 500] |} /\
  list_byte_of_string (http.FormValue bare "body") = [].
Proof.
  assert (Hverb : "save" ∈ verbs) by (unfold verbs; repeat constructor).
  split; [|split].
  - exact (proj1 (saveHandler_saves_and_replies "save" "Foo"
             {| Method := "POST"; URL_Path := "/save/Foo";
                URL_Query := []; Body_Form := [("body", "bar")] |} empty_state
             Hverb eq_refl eq_refl)).
  - exact (proj1 (saveHandler_saves_and_replies "save" "Foo"
             {| Method := "POST"; URL_Path := "/save/Foo";
                URL_Query := []; Body_Form := [("body", "bar")] |}
             (one_file "Foo.txt" (octal [0; 4; 0; 0]%Z) "old")
             Hverb eq_refl eq_refl)).
  - apply (proj2 (saveHandler_saves_and_replies "save" "Foo"
             {| Method := "POST"; URL_Path := "/save/Foo";
                URL_Query := []; Body_Form := [] |} empty_state
             Hverb eq_refl eq_refl)).
    constructor.
Defined.

(** C8: for every Page p, saving p twice in a row leaves the store, and all
    of the state, as one save of p leaves it, and returns what that one
    save returns. *)
Theorem save_idempotent (p : Page) (σ : State) :
  (save p;; save p) σ = save p σ.
Proof.
  unfold mbind, M_bind. rewrite (save_target p σ).
  destruct (write_target (Title p +:+ ".txt") (octal [0; 6; 0; 0]%Z) σ)
    as [e|[key mode]] eqn:Hw.
  - rewrite save_target, Hw. reflexivity.
  - rewrite save_target.
    rewrite (write_target_again _ _ _ _ (Body p) σ (proj1 mode_0600) Hw).
    unfold set_files. cbn [files stdout response].
    rewrite insert_insert_eq. reflexivity.
Qed.

(** C9: the file name title + ".txt" is injective over the valid titles,
    and it is the name under which save and load keep a page: two valid
    titles with the same file name are the same title; a valid title holds
    neither "." nor "/"; saving a page leaves the file of every other
    valid title as it was; and two pages saved one after the other under
    different valid titles are both there afterwards, each in the file of
    its own title with its own body, and each is what load of its title
    yields when the owner may read the file. *)
Theorem page_file_injective (t1 t2 : string) :
  valid_title t1 = true ->
  valid_title t2 = true ->
  (t1 +:+ ".txt" = t2 +:+ ".txt" -> t1 = t2) /\
  Strings.all (fun c => negb (Ascii.eqb c "." || Ascii.eqb c "/")) t1 = true /\
  (t1 <> t2 ->
   forall (B : list byte) (σ : State),
   exists err σ',
     save {| Title := t1; Body := B |} σ = Returned err σ' /\
     files σ' !! (t2 +:+ ".txt") = files σ !! (t2 +:+ ".txt")) /\
  (t1 <> t2 ->
   forall (B1 B2 : list byte) (σ σ1 σ2 : State),
     save {| Title := t1; Body := B1 |} σ = Returned None σ1 ->
     save {| Title := t2; Body := B2 |} σ1 = Returned None σ2 ->
     exists f1 f2,
       files σ2 !! (t1 +:+ ".txt") = Some f1 /\ Data f1 = B1 /\
       files σ2 !! (t2 +:+ ".txt") = Some f2 /\ Data f2 = B2 /\
       (owner_may_read (Mode f1) = true ->
        loadpage t1 σ2 = Returned (Some {| Title := t1; Body := B1 |}, None) σ2) /\
       (owner_may_read (Mode f2) = true ->
        loadpage t2 σ2 = Returned (Some {| Title := t2; Body := B2 |}, None) σ2)).
Proof.
  intros Hv1 Hv2. split; [apply app_inj_r|]. split; [|split].
  - apply (all_impl (in_class title_class)); [apply title_class_no_separator|].
    apply valid_title_all, Hv1.
  - intros Hne B σ.
    assert (Hnames : t1 +:+ ".txt" <> t2 +:+ ".txt")
      by (intros Heq; apply Hne, (app_inj_r _ _ _ Heq)).
    rewrite save_eq by exact Hv1. cbn [Title Body].
    destruct (files σ !! (t1 +:+ ".txt")) as [f|];
      [destruct (owner_may_write (Mode f))
      |destruct (NAME_MAX <? String.length (t1 +:+ ".txt"))%nat];
      eexists _, _; (split; [reflexivity|]); try reflexivity;
      cbn [files set_files]; apply lookup_insert_ne, Hnames.
  - intros Hne B1 B2 σ σ1 σ2 Hs1 Hs2.
    assert (Hnames : t2 +:+ ".txt" <> t1 +:+ ".txt")
      by (intros Heq; apply Hne; symmetry; apply (app_inj_r _ _ _ Heq)).
    assert (H1 : exists f1, files σ1 !! (t1 +:+ ".txt") = Some f1 /\ Data f1 = B1).
    { rewrite save_eq in Hs1 by exact Hv1. cbn [Title Body] in Hs1.
      destruct (files σ !! (t1 +:+ ".txt")) as [f|];
        [destruct (owner_may_write (Mode f))
        |destruct (NAME_MAX <? String.length (t1 +:+ ".txt"))%nat];
        try discriminate; injection Hs1 as <-;
        eexists; cbn [files set_files]; rewrite lookup_insert_eq; split; reflexivity. }
    destruct H1 as (f1 & Hf1 & Hd1).
    rewrite save_eq in Hs2 by exact Hv2. cbn [Title Body] in Hs2.
    assert (H2 : exists f2, files σ2 !! (t2 +:+ ".txt") = Some f2 /\ Data f2 = B2 /\
                            files σ2 !! (t1 +:+ ".txt") = Some f1).
    { destruct (files σ1 !! (t2 +:+ ".txt")) as [f|];
        [destruct (owner_may_write (Mode f))
        |destruct (NAME_MAX <? String.length (t2 +:+ ".txt"))%nat];
        try discriminate; injection Hs2 as <-;
        eexists; cbn [files set_files]; rewrite lookup_insert_eq;
        rewrite (lookup_insert_ne _ _ _ _ Hnames); repeat split; exact Hf1. }
    destruct H2 as (f2 & Hf2 & Hd2 & Hf1').
    exists f1, f2. repeat split; try assumption.
    + intros Hr. rewrite (loadpage_eq _ _ Hv1), Hf1'. cbn [load_result].
      rewrite Hr, Hd1. reflexivity.
    + intros Hr. rewrite (loadpage_eq _ _ Hv2), Hf2. cbn [load_result].
      rewrite Hr, Hd2. reflexivity.
Qed.

Lemma page_file_injective_witness :
  let pf := {| Title := "Foo"; Body := list_byte_of_string "a" |} in
  let pb := {| Title := "Bar"; Body := list_byte_of_string "b" |} in
  valid_title "Foo" = true /\ valid_title "Bar" = true /\ "Foo" <> "Bar" /\
  exists σ1 σ2,
    save pf empty_state = Returned None σ1 /\
    save pb σ1 = Returned None σ2 /\
    loadpage "Foo" σ2 = Returned (Some pf, None) σ2 /\
    loadpage "Bar" σ2 = Returned (Some pb, None) σ2.
Proof.
  assert (Hne : "Foo" <> "Bar") by discriminate.
  split; [reflexivity|]. split; [reflexivity|]. split; [exact Hne|].
  destruct (save_returns {| Title := "Foo"; Body := list_byte_of_string "a" |}
              empty_state) as (e1 & σ1 & Hs1).
  assert (He1 : e1 = None) by (vm_compute in Hs1; congruence). subst e1.
  destruct (save_returns {| Title := "Bar"; Body := list_byte_of_string "b" |} σ1)
    as (e2 & σ2 & Hs2).
  assert (He2 : e2 = None).
  { vm_compute in Hs1. injection Hs1 as <-. vm_compute in Hs2. congruence. }
  subst e2.
  destruct (proj2 (proj2 (proj2 (page_file_injective "Foo" "Bar" eq_refl eq_refl)))
              Hne _ _ _ _ _ Hs1 Hs2)
    as (f1 & f2 & Hf1 & _ & Hf2 & _ & Hl1 & Hl2).
  exists σ1, σ2. split; [exact Hs1|]. split; [exact Hs2|].
  vm_compute in Hs1. injection Hs1 as <-. vm_compute in Hs2. injection Hs2 as <-.
  vm_compute in Hf1. injection Hf1 as <-. vm_compute in Hf2. injection Hf2 as <-.
  split; [apply Hl1; reflexivity|apply Hl2; reflexivity].
Defined.

(** C10: saveHandler never looks at the request method: for every method
    (GET, POST, PUT, ...), a request whose path is /save/<valid title> has
    the page of that title and of the form value "body" saved, and is
    answered by the 302 redirect to /view/<title> when save returned no
    error (the file of the title then holds that body), by 500 when it
    returned one; and a request that differs in the method only is handled
    alike as long as its form gives the same "body". *)
Theorem saveHandler_any_method
  (method title : string) (query form : list (string * string)) (σ : State) :
  valid_title title = true ->
  let r := {| Method := method; URL_Path := path_of "save" title;
              URL_Query := query; Body_Form := form |} in
  let p := {| Title := title;
              Body := list_byte_of_string (http.FormValue r "body") |} in
  match save p (print (fmt.Sprintln [path_of "save" title; "save"; title]) σ) with
  | Returned None σ2 =>
      saveHandler r σ =
        Returned tt (reply (RedirectReply ("/view/" +:+ title) 302%Z) σ2) /\
      exists f, files σ2 !! (title +:+ ".txt") = Some f /\ Data f = Body p
  | Returned (Some e) σ2 =>
      saveHandler r σ =
        Returned tt (reply (ErrorReply ("soemthing weird is happening: " +:+ Error e)
                                       500%Z) σ2)
  | Panicked _ _ => False
  end /\
  (forall method',
     let r' := {| Method := method'; URL_Path := path_of "save" title;
                  URL_Query := query; Body_Form := form |} in
     http.FormValue r' "body" = http.FormValue r "body" ->
     saveHandler r' σ = saveHandler r σ).
Proof.
  intros Hv r p.
  assert (Hverb : "save" ∈ verbs) by (unfold verbs; repeat constructor).
  split.
  - rewrite (saveHandler_eq "save" title r σ Hverb Hv eq_refl). fold p.
    set (σ1 := print (fmt.Sprintln [path_of "save" title; "save"; title]) σ).
    rewrite (save_eq p σ1 Hv). cbn [Title Body p].
    destruct (files σ1 !! (title +:+ ".txt")) as [f|];
      [destruct (owner_may_write (Mode f))
      |destruct (NAME_MAX <? String.length (title +:+ ".txt"))%nat];
      try reflexivity.
    all: split; [reflexivity|]; eexists; cbn [files set_files];
      rewrite lookup_insert_eq; split; reflexivity.
  - intros method' r' Hbody.
    rewrite (saveHandler_eq "save" title r σ Hverb Hv eq_refl).
    rewrite (saveHandler_eq "save" title r' σ Hverb Hv eq_refl).
    rewrite Hbody. reflexivity.
Qed.

Lemma saveHandler_any_method_witness :
  let get := {| Method := "GET"; URL_Path := "/save/Foo";
                URL_Query := [("body", "bar")]; Body_Form := [] |} in
  let put := {| Method := "PUT"; URL_Path := "/save/Foo";
                URL_Query := [("body", "bar")]; Body_Form := [] |} in
  valid_title "Foo" = true /\
  saveHandler get empty_state =
    Returned tt
      {| files := {["Foo.txt" := {| Mode := octal [0; 6; 0; 0]%Z;
                                    Data := list_byte_of_string "bar" |}]};
         stdout := fmt.Sprintln ["/save/Foo"; "save"; "Foo"];
         response := [RedirectReply "/view/Foo" 302] |} /\
  saveHandler put empty_state = saveHandler get empty_state.
Proof.
  split; [reflexivity|]. split.
  - exact (proj1 (proj1 (saveHandler_any_method "GET" "Foo" [("body", "bar")] []
                           empty_state eq_refl))).
  - exact (proj2 (saveHandler_any_method "GET" "Foo" [("body", "bar")] []
                    empty_state eq_refl) "PUT" eq_refl).
Defined.

(** ** Further properties of the program *)

(** What [renderTemplate] does, in one equation. *)
Lemma renderTemplate_eq
  (templates : string -> option Page -> string * option error)
  (tmpl : string) (p : option Page) (σ : State) :
  renderTemplate templates tmpl p σ =
  Returned tt
    match templates (tmpl +:+ ".html") p with
    | (out, None) => streamed out σ
    | (out, Some e) =>
        reply (ErrorReply ("soemthing weird is happening: " +:+ Error e)
                          http.StatusInternalServerError)
              (streamed out σ)
    end.
Proof.
  unfold renderTemplate, ExecuteTemplate, mbind, M_bind.
  destruct (templates (tmpl +:+ ".html") p) as [out [e|]]; reflexivity.
Qed.

Lemma files_streamed (out : string) (σ : State) : files (streamed out σ) = files σ.
Proof. destruct out; reflexivity. Qed.

Lemma renderTemplate_files
  (templates : string -> option Page -> string * option error)
  (tmpl : string) (p : option Page) (σ : State) :
  exists σ', renderTemplate templates tmpl p σ = Returned tt σ' /\ files σ' = files σ.
Proof.
  rewrite renderTemplate_eq. eexists. split; [reflexivity|].
  destruct (templates (tmpl +:+ ".html") p) as [out [e|]];
    cbn [files reply]; apply files_streamed.
Qed.

(** A load that succeeds keeps succeeding whatever is printed in between. *)
Lemma loadpage_print (title s : string) (σ : State) :
  valid_title title = true ->
  loadpage title (print s σ) =
  Returned (load_result title (files σ !! (title +:+ ".txt"))) (print s σ).
Proof. intros Hv. rewrite (loadpage_eq _ _ Hv). reflexivity. Qed.

(** Both handlers load the page of the title in the path; what differs is
    the template. *)
Lemma handlers_load_page
  (templates : string -> option Page -> string * option error)
  (verb title : string) (r : Request) (σ : State) (f : File) :
  verb ∈ verbs ->
  valid_title title = true ->
  URL_Path r = path_of verb title ->
  files σ !! (title +:+ ".txt") = Some f ->
  owner_may_read (Mode f) = true ->
  let p := Some {| Title := title; Body := Data f |} in
  let σ1 := print (fmt.Sprintln [path_of verb title; verb; title]) σ in
  viewHandler templates r σ = renderTemplate templates "view" p σ1 /\
  editHandler templates r σ = renderTemplate templates "edit" p σ1.
Proof.
  intros Hverb Hv Hpath Hf Hr. cbn zeta. unfold viewHandler, editHandler.
  rewrite !(bind_Returned _ _ _ _ _ (getTitle_valid _ _ _ σ Hverb Hv Hpath)).
  cbn beta iota.
  rewrite !(bind_Returned _ _ _ _ _ (loadpage_print _ _ _ Hv)).
  rewrite Hf. cbn [load_result]. rewrite Hr. split; reflexivity.
Qed.

(** X1: when the path names a valid title whose file is there and may be
    read, viewHandler renders the "view" template with the page of that
    title and the content of the file, and does nothing else. *)
Theorem viewHandler_renders_page
  (templates : string -> option Page -> string * option error)
  (verb title : string) (r : Request) (σ : State) (f : File) :
  verb ∈ verbs ->
  valid_title title = true ->
  URL_Path r = path_of verb title ->
  files σ !! (title +:+ ".txt") = Some f ->
  owner_may_read (Mode f) = true ->
  viewHandler templates r σ =
  renderTemplate templates "view" (Some {| Title := title; Body := Data f |})
                 (print (fmt.Sprintln [path_of verb title; verb; title]) σ).
Proof.
  intros Hverb Hv Hpath Hf Hr.
  apply (handlers_load_page templates verb title r σ f); assumption.
Qed.

Lemma viewHandler_renders_page_witness :
  let σ := one_file "Foo.txt" (octal [0; 6; 0; 0]%Z) "bar" in
  let r := {| Method := "GET"; URL_Path := "/view/Foo";
              URL_Query := []; Body_Form := [] |} in
  viewHandler demo_templates r σ =
  Returned tt {| files := files σ;
                 stdout := fmt.Sprintln ["/view/Foo"; "view"; "Foo"];
                 response := [WriteReply "<h1>Foo</h1>bar"] |}.
Proof.
  assert (Hverb : "view" ∈ verbs) by (unfold verbs; repeat constructor).
  exact (viewHandler_renders_page demo_templates "view" "Foo"
           {| Method := "GET"; URL_Path := "/view/Foo";
              URL_Query := []; Body_Form := [] |}
           (one_file "Foo.txt" (octal [0; 6; 0; 0]%Z) "bar")
           {| Mode := octal [0; 6; 0; 0]%Z; Data := list_byte_of_string "bar" |}
           Hverb eq_refl eq_refl eq_refl eq_refl).
Defined.

(** X2: when the path names a valid title whose file is there and may be
    read, editHandler renders the "edit" template with the page as it is
    stored, not with an empty one. *)
Theorem editHandler_renders_page
  (templates : string -> option Page -> string * option error)
  (verb title : string) (r : Request) (σ : State) (f : File) :
  verb ∈ verbs ->
  valid_title title = true ->
  URL_Path r = path_of verb title ->
  files σ !! (title +:+ ".txt") = Some f ->
  owner_may_read (Mode f) = true ->
  editHandler templates r σ =
  renderTemplate templates "edit" (Some {| Title := title; Body := Data f |})
                 (print (fmt.Sprintln [path_of verb title; verb; title]) σ).
Proof.
  intros Hverb Hv Hpath Hf Hr.
  apply (handlers_load_page templates verb title r σ f); assumption.
Qed.

Lemma editHandler_renders_page_witness :
  let σ := one_file "Foo.txt" (octal [0; 6; 0; 0]%Z) "bar" in
  let r := {| Method := "GET"; URL_Path := "/edit/Foo";
              URL_Query := []; Body_Form := [] |} in
  editHandler demo_templates r σ =
  Returned tt {| files := files σ;
                 stdout := fmt.Sprintln ["/edit/Foo"; "edit"; "Foo"];
                 response := [WriteReply "<form>Foo</form>"] |}.
Proof.
  assert (Hverb : "edit" ∈ verbs) by (unfold verbs; repeat constructor).
  exact (editHandler_renders_page demo_templates "edit" "Foo"
           {| Method := "GET"; URL_Path := "/edit/Foo";
              URL_Query := []; Body_Form := [] |}
           (one_file "Foo.txt" (octal [0; 6; 0; 0]%Z) "bar")
           {| Mode := octal [0; 6; 0; 0]%Z; Data := list_byte_of_string "bar" |}
           Hverb eq_refl eq_refl eq_refl eq_refl).
Defined.

(** The two outcomes of [getTitle]. *)
Lemma getTitle_cases (r : Request) (σ : State) :
  (exists verb title,
     verb ∈ verbs /\ valid_title title = true /\
     URL_Path r = path_of verb title /\
     getTitle r σ =
     Returned (title, None)
              (print (fmt.Sprintln [path_of verb title; verb; title]) σ)) \/
  (~ path_grammar (URL_Path r) /\
   getTitle r σ =
   Returned ("", Some (errors.New "invalid page title"))
            (reply (ErrorReply "404 page not found" http.StatusNotFound) σ)).
Proof.
  destruct (FindStringSubmatch validPath (URL_Path r)) as [m|] eqn:Hm.
  - left. apply FindStringSubmatch_validPath_inv in Hm
      as (verb & title & Hverb & Hv & Hpath & _).
    exists verb, title. repeat split; try assumption.
    apply getTitle_valid; assumption.
  - right. apply FindStringSubmatch_validPath_None in Hm.
    split; [exact Hm|]. apply getTitle_invalid, Hm.
Qed.

(** X3: getTitle has two outcomes and no other, for every request: the
    path is "/" + verb + "/" + title with one of the three verbs and a
    valid title, and getTitle prints the match and returns the title with a
    nil error; or the path is outside the grammar, and getTitle replies 404
    and returns the empty title with an error. The index m[2] is never out
    of range. *)
Theorem getTitle_outcomes (r : Request) (σ : State) :
  (exists verb title,
     verb ∈ verbs /\ valid_title title = true /\
     URL_Path r = path_of verb title /\
     getTitle r σ =
     Returned (title, None)
              (print (fmt.Sprintln [path_of verb title; verb; title]) σ)) \/
  (~ path_grammar (URL_Path r) /\
   getTitle r σ =
   Returned ("", Some (errors.New "invalid page title"))
            (reply (ErrorReply "404 page not found" http.StatusNotFound) σ)).
Proof. apply getTitle_cases. Qed.

(** X4: a title that getTitle returns with a nil error is never empty and
    holds ASCII letters and digits only, so neither "." nor "/": it is the
    rest of the path after the verb, and the file name made from it stays
    in the working directory. *)
Theorem getTitle_title_is_safe
  (r : Request) (σ σ' : State) (title : string) :
  getTitle r σ = Returned (title, None) σ' ->
  title <> "" /\
  Strings.all (in_class title_class) title = true /\
  Strings.all (fun c => negb (Ascii.eqb c "." || Ascii.eqb c "/")) title = true /\
  exists verb, verb ∈ verbs /\ URL_Path r = "/" +:+ verb +:+ "/" +:+ title.
Proof.
  intros Hget.
  destruct (getTitle_cases r σ)
    as [(verb & t & Hverb & Hv & Hpath & Hret)|[_ Hret]];
    rewrite Hret in Hget; [|discriminate].
  injection Hget as <- _.
  split; [apply valid_title_nonempty, Hv|].
  split; [apply valid_title_all, Hv|]. split.
  - apply (all_impl (in_class title_class)); [apply title_class_no_separator|].
    apply valid_title_all, Hv.
  - exists verb. split; assumption.
Qed.

Lemma getTitle_title_is_safe_witness :
  let r := {| Method := "GET"; URL_Path := "/view/Foo";
              URL_Query := []; Body_Form := [] |} in
  getTitle r empty_state =
    Returned ("Foo", None)
             (print (fmt.Sprintln ["/view/Foo"; "view"; "Foo"]) empty_state) /\
  "Foo" <> "" /\
  Strings.all (in_class title_class) "Foo" = true /\
  Strings.all (fun c => negb (Ascii.eqb c "." || Ascii.eqb c "/")) "Foo" = true /\
  exists verb, verb ∈ verbs /\ "/view/Foo" = "/" +:+ verb +:+ "/" +:+ "Foo".
Proof.
  split; [reflexivity|].
  exact (getTitle_title_is_safe
           {| Method := "GET"; URL_Path := "/view/Foo";
              URL_Query := []; Body_Form := [] |}
           empty_state _ "Foo" eq_refl).
Defined.

(** The handlers that render leave the files alone. *)
Lemma view_edit_files
  (templates : string -> option Page -> string * option error)
  (r : Request) (σ : State) :
  (exists σ', viewHandler templates r σ = Returned tt σ' /\ files σ' = files σ) /\
  (exists σ', editHandler templates r σ = Returned tt σ' /\ files σ' = files σ).
Proof.
  destruct (getTitle_cases r σ)
    as [(verb & title & Hverb & Hv & Hpath & Hget)|[_ Hget]].
  - split; unfold viewHandler, editHandler;
      rewrite (bind_Returned _ _ _ _ _ Hget); cbn beta iota;
      rewrite (bind_Returned _ _ _ _ _ (loadpage_print _ _ _ Hv)).
    + destruct (load_result title (files σ !! (title +:+ ".txt"))) as [p [e|]].
      * eexists. split; reflexivity.
      * edestruct (renderTemplate_files templates "view" p) as (σ' & Hr & Hf).
        exists σ'. split; [exact Hr|exact Hf].
    + destruct (load_result title (files σ !! (title +:+ ".txt"))) as [p [e|]];
        cbn zeta iota;
        match goal with
        | |- context [renderTemplate templates "edit" ?q ?s] =>
            destruct (renderTemplate_files templates "edit" q s) as (σ' & Hr & Hf)
        end;
        exists σ'; (split; [exact Hr|exact Hf]).
  - split; unfold viewHandler, editHandler;
      rewrite (bind_Returned _ _ _ _ _ Hget); eexists; split; reflexivity.
Qed.

(** X5: viewHandler and editHandler only read: for every request, whatever
    its path and whatever the store holds, they return without a panic and
    leave every file as it was. *)
Theorem view_and_edit_only_read
  (templates : string -> option Page -> string * option error)
  (r : Request) (σ : State) :
  (exists σ', viewHandler templates r σ = Returned tt σ' /\ files σ' = files σ) /\
  (exists σ', editHandler templates r σ = Returned tt σ' /\ files σ' = files σ).
Proof. apply view_edit_files. Qed.

(** X6: saveHandler writes at most one file, and only a page file: for
    every request it returns without a panic, and either the store is as it
    was, or the path is "/" + verb + "/" + title with a valid title and the
    one file title + ".txt" now holds the bytes of the form value "body".
    A file whose name is not a valid title followed by ".txt" is never
    touched. *)
Theorem saveHandler_writes_one_page_file (r : Request) (σ : State) :
  exists σ',
    saveHandler r σ = Returned tt σ' /\
    (files σ' = files σ \/
     exists verb title f,
       verb ∈ verbs /\ valid_title title = true /\
       URL_Path r = path_of verb title /\
       Data f = list_byte_of_string (http.FormValue r "body") /\
       files σ' = <[title +:+ ".txt" := f]> (files σ)) /\
    (forall name,
       (forall title, valid_title title = true -> name <> title +:+ ".txt") ->
       files σ' !! name = files σ !! name).
Proof.
  destruct (getTitle_cases r σ)
    as [(verb & title & Hverb & Hv & Hpath & Hget)|[_ Hget]].
  - rewrite (saveHandler_eq _ _ _ σ Hverb Hv Hpath), save_eq by exact Hv.
    cbn [Title Body files print].
    destruct (files σ !! (title +:+ ".txt")) as [f|];
      [destruct (owner_may_write (Mode f))
      |destruct (NAME_MAX <? String.length (title +:+ ".txt"))%nat].
    + eexists. split; [reflexivity|]. cbn [files reply set_files print]. split.
      * right. eexists verb, title, _. repeat split; try eassumption. reflexivity.
      * intros name Hname. apply lookup_insert_ne. intros Heq.
        apply (Hname title Hv). symmetry. exact Heq.
    + eexists. split; [reflexivity|]. split; [left; reflexivity|reflexivity].
    + eexists. split; [reflexivity|]. split; [left; reflexivity|reflexivity].
    + eexists. split; [reflexivity|]. cbn [files reply set_files print]. split.
      * right. eexists verb, title, _. repeat split; try eassumption. reflexivity.
      * intros name Hname. apply lookup_insert_ne. intros Heq.
        apply (Hname title Hv). symmetry. exact Heq.
  - unfold saveHandler. rewrite (bind_Returned _ _ _ _ _ Hget).
    eexists. split; [reflexivity|]. split; [left; reflexivity|reflexivity].
Qed.

(** X7: the last save wins: saving two pages of the same title one after
    the other leaves the state, and returns the error, of saving the second
    page alone. *)
Theorem save_last_wins (title : string) (B1 B2 : list byte) (σ : State) :
  (save {| Title := title; Body := B1 |};; save {| Title := title; Body := B2 |}) σ
  = save {| Title := title; Body := B2 |} σ.
Proof.
  unfold mbind, M_bind.
  rewrite (save_target {| Title := title; Body := B1 |} σ).
  rewrite (save_target {| Title := title; Body := B2 |} σ). cbn [Title Body].
  destruct (write_target (title +:+ ".txt") (octal [0; 6; 0; 0]%Z) σ)
    as [e|[key mode]] eqn:Hw.
  { rewrite save_target. cbn [Title Body]. rewrite Hw. reflexivity. }
  rewrite save_target. cbn [Title Body].
  rewrite (write_target_again _ _ _ _ B1 σ (proj1 mode_0600) Hw).
  unfold set_files. cbn [files stdout response].
  rewrite insert_insert_eq. reflexivity.
Qed.

(** The outcome of [save] on a valid title, by cases on the store. *)
Lemma save_cases (p : Page) (σ : State) :
  valid_title (Title p) = true ->
  (exists f, save p σ = Returned None (set_files <[Title p +:+ ".txt" := f]> σ) /\
             Data f = Body p /\
             (readable (Title p +:+ ".txt") σ = true -> owner_may_read (Mode f) = true)) \/
  (exists e, save p σ = Returned (Some e) σ).
Proof.
  intros Hv. rewrite (save_eq _ _ Hv). unfold readable.
  destruct (files σ !! (Title p +:+ ".txt")) as [f|];
    [destruct (owner_may_write (Mode f))
    |destruct (NAME_MAX <? String.length (Title p +:+ ".txt"))%nat]; eauto.
Qed.

(** A save of one file name does not depend on the entry of another. *)
Lemma save_frame (p : Page) (name : string) (g : File) (σ : State) :
  valid_title (Title p) = true ->
  name <> Title p +:+ ".txt" ->
  save p (set_files <[name := g]> σ) =
  match save p σ with
  | Returned err σ' => Returned err (set_files <[name := g]> σ')
  | Panicked v σ' => Panicked v (set_files <[name := g]> σ')
  end.
Proof.
  intros Hv Hname. rewrite !(save_eq _ _ Hv). cbn [files set_files].
  rewrite (lookup_insert_ne _ _ _ _ Hname).
  destruct (files σ !! (Title p +:+ ".txt")) as [f|];
    [destruct (owner_may_write (Mode f))
    |destruct (NAME_MAX <? String.length (Title p +:+ ".txt"))%nat];
    try reflexivity.
  all: unfold set_files; cbn [files stdout response];
    rewrite (insert_insert_ne _ _ _ _ _ Hname); reflexivity.
Qed.

(** X8: saves of pages with different valid titles do not interfere: in
    either order they leave the same state, and each returns the error it
    returns when run alone. *)
Theorem save_different_titles_commute
  (t1 t2 : string) (B1 B2 : list byte) (σ : State) :
  valid_title t1 = true ->
  valid_title t2 = true ->
  t1 <> t2 ->
  let p1 := {| Title := t1; Body := B1 |} in
  let p2 := {| Title := t2; Body := B2 |} in
  exists e1 e2 σ1 σ2 σ',
    save p1 σ = Returned e1 σ1 /\
    save p2 σ = Returned e2 σ2 /\
    (save p1;; save p2) σ = Returned e2 σ' /\
    (save p2;; save p1) σ = Returned e1 σ'.
Proof.
  intros Hv1 Hv2 Hne p1 p2.
  assert (H12 : t1 +:+ ".txt" <> t2 +:+ ".txt")
    by (intros Heq; apply Hne, (app_inj_r _ _ _ Heq)).
  assert (H21 : t2 +:+ ".txt" <> t1 +:+ ".txt") by congruence.
  pose proof (fun g => save_frame p2 (t1 +:+ ".txt") g σ Hv2 H12) as Hf2.
  pose proof (fun g => save_frame p1 (t2 +:+ ".txt") g σ Hv1 H21) as Hf1.
  unfold mbind, M_bind.
  destruct (save_cases p1 σ Hv1) as [(f1 & Hs1 & _)|[e1 Hs1]];
    destruct (save_cases p2 σ Hv2) as [(f2 & Hs2 & _)|[e2 Hs2]];
    change (Title p1) with t1 in Hs1; change (Title p2) with t2 in Hs2;
    rewrite ?Hs1, ?Hs2 in Hf1, Hf2; rewrite Hs1, Hs2; cbn beta iota;
    rewrite ?Hf1, ?Hf2, ?Hs1, ?Hs2.
  - eexists _, _, _, _, _. repeat split.
    unfold set_files. cbn [files stdout response].
    rewrite (insert_insert_ne _ _ _ _ _ H12). reflexivity.
  - eexists _, _, _, _, _. repeat split.
  - eexists _, _, _, _, _. repeat split.
  - eexists _, _, _, _, _. repeat split.
Qed.

Lemma save_different_titles_commute_witness :
  let p1 := {| Title := "Foo"; Body := list_byte_of_string "a" |} in
  let p2 := {| Title := "Bar"; Body := list_byte_of_string "b" |} in
  let σ := one_file "Bar.txt" (octal [0; 4; 0; 0]%Z) "old" in
  valid_title "Foo" = true /\ valid_title "Bar" = true /\ "Foo" <> "Bar" /\
  exists e1 e2 σ1 σ2 σ',
    save p1 σ = Returned e1 σ1 /\
    save p2 σ = Returned e2 σ2 /\
    (save p1;; save p2) σ = Returned e2 σ' /\
    (save p2;; save p1) σ = Returned e1 σ'.
Proof.
  assert (Hne : "Foo" <> "Bar") by discriminate.
  split; [reflexivity|]. split; [reflexivity|]. split; [exact Hne|].
  exact (save_different_titles_commute "Foo" "Bar" (list_byte_of_string "a")
           (list_byte_of_string "b")
           (one_file "Bar.txt" (octal [0; 4; 0; 0]%Z) "old") eq_refl eq_refl Hne).
Defined.

(** X9: a page that saveHandler has saved is the page the other handlers
    serve: when a request for /save/<title> with a valid title has been
    answered by the redirect, and the file of the title was not there
    before or may be read by its owner, then on the state the request
    leaves viewHandler and editHandler render their template with the page
    of that title whose body is the form value "body", byte for byte. *)
Theorem saved_page_is_served
  (templates : string -> option Page -> string * option error)
  (title : string) (rs rv re : Request) (σ σ1 : State) :
  valid_title title = true ->
  URL_Path rs = path_of "save" title ->
  URL_Path rv = path_of "view" title ->
  URL_Path re = path_of "edit" title ->
  saveHandler rs σ = Returned tt σ1 ->
  response σ1 = (response σ ++ [RedirectReply ("/view/" +:+ title) 302%Z])%list ->
  readable (title +:+ ".txt") σ = true ->
  let p := {| Title := title;
              Body := list_byte_of_string (http.FormValue rs "body") |} in
  viewHandler templates rv σ1 =
    renderTemplate templates "view" (Some p)
      (print (fmt.Sprintln [path_of "view" title; "view"; title]) σ1) /\
  editHandler templates re σ1 =
    renderTemplate templates "edit" (Some p)
      (print (fmt.Sprintln [path_of "edit" title; "edit"; title]) σ1) /\
  string_of_list_byte (Body p) = http.FormValue rs "body".
Proof.
  intros Hv Hs Hview Hedit Hrun Hresp Hread p.
  assert (Hsave : "save" ∈ verbs) by (unfold verbs; repeat constructor).
  assert (Hvw : "view" ∈ verbs) by (unfold verbs; repeat constructor).
  assert (Hed : "edit" ∈ verbs) by (unfold verbs; repeat constructor).
  rewrite (saveHandler_eq _ _ _ σ Hsave Hv Hs) in Hrun. fold p in Hrun.
  set (σ0 := print (fmt.Sprintln [path_of "save" title; "save"; title]) σ) in *.
  assert (Hread0 : readable (Title p +:+ ".txt") σ0 = true) by exact Hread.
  destruct (save_cases p σ0 Hv) as [(f & Hsv & Hdata & Hmode)|[e Hsv]];
    rewrite Hsv in Hrun; injection Hrun as <-.
  - specialize (Hmode Hread0). cbn [Title Body p] in Hsv, Hdata.
    assert (Hfile : files (reply (RedirectReply ("/view/" +:+ title) http.StatusFound)
                             (set_files <[title +:+ ".txt" := f]> σ0))
                    !! (title +:+ ".txt") = Some f)
      by (cbn [files reply set_files]; apply lookup_insert_eq).
    pose proof (handlers_load_page templates "view" title rv _ f
                  Hvw Hv Hview Hfile Hmode) as [Hv1 _].
    pose proof (handlers_load_page templates "edit" title re _ f
                  Hed Hv Hedit Hfile Hmode) as [_ He1].
    rewrite Hdata in Hv1, He1.
    split; [exact Hv1|]. split; [exact He1|apply string_of_list_byte_of_string].
  - cbn [response reply σ0 print] in Hresp.
    apply app_inj_tail in Hresp as [_ Hresp]. discriminate.
Qed.

Lemma saved_page_is_served_witness :
  let rs := {| Method := "POST"; URL_Path := "/save/Foo";
               URL_Query := []; Body_Form := [("body", "bar")] |} in
  let rv := {| Method := "GET"; URL_Path := "/view/Foo";
               URL_Query := []; Body_Form := [] |} in
  let σ := one_file "Foo.txt" (octal [0; 6; 4; 4]%Z) "old" in
  let σ1 := {| files := {["Foo.txt" := {| Mode := octal [0; 6; 4; 4]%Z;
                                          Data := list_byte_of_string "bar" |}]};
               stdout := fmt.Sprintln ["/save/Foo"; "save"; "Foo"];
               response := [RedirectReply "/view/Foo" 302] |} in
  saveHandler rs σ = Returned tt σ1 /\
  readable "Foo.txt" σ = true /\
  viewHandler demo_templates rv σ1 =
  Returned tt
    {| files := files σ1;
       stdout := fmt.Sprintln ["/save/Foo"; "save"; "Foo"]
                 +:+ fmt.Sprintln ["/view/Foo"; "view"; "Foo"];
       response := [RedirectReply "/view/Foo" 302; WriteReply "<h1>Foo</h1>bar"] |}.
Proof.
  assert (Hrun : saveHandler
            {| Method := "POST"; URL_Path := "/save/Foo";
               URL_Query := []; Body_Form := [("body", "bar")] |}
            (one_file "Foo.txt" (octal [0; 6; 4; 4]%Z) "old") =
          Returned tt
            {| files := {["Foo.txt" := {| Mode := octal [0; 6; 4; 4]%Z;
                                          Data := list_byte_of_string "bar" |}]};
               stdout := fmt.Sprintln ["/save/Foo"; "save"; "Foo"];
               response := [RedirectReply "/view/Foo" 302] |})
    by (vm_compute; reflexivity).
  split; [exact Hrun|]. split; [reflexivity|].
  exact (proj1 (saved_page_is_served demo_templates "Foo"
           {| Method := "POST"; URL_Path := "/save/Foo";
              URL_Query := []; Body_Form := [("body", "bar")] |}
           {| Method := "GET"; URL_Path := "/view/Foo";
              URL_Query := []; Body_Form := [] |}
           {| Method := "GET"; URL_Path := "/edit/Foo";
              URL_Query := []; Body_Form := [] |}
           _ _ eq_refl eq_refl eq_refl eq_refl Hrun eq_refl eq_refl)).
Defined.

(** A state with the same files is in the layout as well. *)
Lemma wiki_store_files (σ σ' : State) :
  files σ' = files σ -> wiki_store σ -> wiki_store σ'.
Proof. unfold wiki_store. intros ->. auto. Qed.

(** X10: the handlers keep the layout in which every file has mode 0600:
    from a store in that layout, each of the three handlers returns, on
    every request, with a store in that layout. *)
Theorem handlers_keep_layout
  (templates : string -> option Page -> string * option error)
  (r : Request) (σ : State) :
  wiki_store σ ->
  (exists σ', viewHandler templates r σ = Returned tt σ' /\ wiki_store σ') /\
  (exists σ', editHandler templates r σ = Returned tt σ' /\ wiki_store σ') /\
  (exists σ', saveHandler r σ = Returned tt σ' /\ wiki_store σ').
Proof.
  intros Hstore.
  destruct (view_edit_files templates r σ) as [(σv & Hview & Hfv) (σe & Hedit & Hfe)].
  split; [exists σv; split; [exact Hview|exact (wiki_store_files _ _ Hfv Hstore)]|].
  split; [exists σe; split; [exact Hedit|exact (wiki_store_files _ _ Hfe Hstore)]|].
  destruct (getTitle_cases r σ)
    as [(verb & title & Hverb & Hv & Hpath & Hget)|[_ Hget]].
  - rewrite (saveHandler_eq _ _ _ σ Hverb Hv Hpath).
    match goal with
    | |- context [save ?q ?s] =>
        destruct (save_returns q s) as (err & σ2 & Hsave); rewrite Hsave
    end.
    apply wiki_store_save in Hsave as Hstore2;
      [|exact (wiki_store_files σ _ eq_refl Hstore)].
    destruct err; eexists; (split; [reflexivity|]);
      exact (wiki_store_files σ2 _ eq_refl Hstore2).
  - unfold saveHandler. rewrite (bind_Returned _ _ _ _ _ Hget).
    eexists. split; [reflexivity|]. exact (wiki_store_files σ _ eq_refl Hstore).
Qed.

Lemma handlers_keep_layout_witness :
  let r := {| Method := "POST"; URL_Path := "/save/Foo";
              URL_Query := []; Body_Form := [("body", "bar")] |} in
  wiki_store empty_state /\
  exists σ', saveHandler r empty_state = Returned tt σ' /\ wiki_store σ'.
Proof.
  split; [exact wiki_store_empty|].
  exact (proj2 (proj2 (handlers_keep_layout demo_templates
           {| Method := "POST"; URL_Path := "/save/Foo";
              URL_Query := []; Body_Form := [("body", "bar")] |}
           empty_state wiki_store_empty))).
Defined.

(** X11: renderTemplate executes the template tmpl + ".html" and reports an
    error of the execution after the output: it touches neither the files
    nor the standard output, and on a fresh response writer the client gets
    status 500 only when the template failed before it wrote anything; a
    template that fails after some output leaves status 200, with the
    error text behind the output. *)
Theorem renderTemplate_status
  (templates : string -> option Page -> string * option error)
  (tmpl : string) (p : option Page) (σ : State) :
  response σ = [] ->
  exists σ',
    renderTemplate templates tmpl p σ = Returned tt σ' /\
    files σ' = files σ /\ stdout σ' = stdout σ /\
    match templates (tmpl +:+ ".html") p with
    | (EmptyString, Some e) =>
        response σ' =
          [ErrorReply ("soemthing weird is happening: " +:+ Error e) 500%Z] /\
        http.status (response σ') = 500%Z
    | (String _ _ as out, Some e) =>
        response σ' =
          [WriteReply out;
           ErrorReply ("soemthing weird is happening: " +:+ Error e) 500%Z] /\
        http.status (response σ') = 200%Z
    | (EmptyString, None) => response σ' = [] /\ http.status (response σ') = 200%Z
    | (String _ _ as out, None) =>
        response σ' = [WriteReply out] /\ http.status (response σ') = 200%Z
    end.
Proof.
  intros Hfresh. rewrite renderTemplate_eq. eexists. split; [reflexivity|].
  destruct (templates (tmpl +:+ ".html") p) as [[|c out] [e|]];
    cbn [streamed reply files stdout response]; rewrite Hfresh;
    repeat split.
Qed.

Lemma renderTemplate_status_witness :
  response empty_state = [] /\
  exists σ',
    renderTemplate demo_templates "index" None empty_state = Returned tt σ' /\
    response σ' = [ErrorReply "soemthing weird is happening: nil data" 500%Z] /\
    http.status (response σ') = 500%Z.
Proof.
  split; [reflexivity|].
  destruct (renderTemplate_status demo_templates "index" None empty_state eq_refl)
    as (σ' & Hrun & _ & _ & Hresp).
  exists σ'. split; [exact Hrun|exact Hresp].
Defined.

(** X12: a saved page is read back whatever is saved under other titles
    in between: for two different valid titles t and u, when save of a page
    of title t has returned no error, and the file of t was not there
    before or may be read by its owner, then after a save of a page of
    title u, whatever that one returns, load(t) succeeds and yields the
    page of title t with the body saved first. *)
Theorem load_after_other_save
  (t u : string) (B C : list byte) (σ σ1 σ2 : State) (err : option error) :
  valid_title t = true ->
  valid_title u = true ->
  t <> u ->
  readable (t +:+ ".txt") σ = true ->
  save {| Title := t; Body := B |} σ = Returned None σ1 ->
  save {| Title := u; Body := C |} σ1 = Returned err σ2 ->
  loadpage t σ2 = Returned (Some {| Title := t; Body := B |}, None) σ2.
Proof.
  intros Hvt Hvu Hne Hread Hs1 Hs2.
  assert (Hnames : u +:+ ".txt" <> t +:+ ".txt")
    by (intros Heq; apply Hne; symmetry; apply (app_inj_r _ _ _ Heq)).
  assert (Hfirst : exists f,
            files σ1 !! (t +:+ ".txt") = Some f /\
            owner_may_read (Mode f) = true /\ Data f = B).
  { destruct (save_cases {| Title := t; Body := B |} σ Hvt)
      as [(f & Hsv & Hdata & Hmode)|[e Hsv]]; rewrite Hsv in Hs1; [|discriminate].
    injection Hs1 as <-. exists f. cbn [files set_files Title].
    rewrite lookup_insert_eq. repeat split; [apply Hmode, Hread|exact Hdata]. }
  destruct Hfirst as (f & Hf & Hr & Hdata).
  rewrite (loadpage_eq _ _ Hvt).
  destruct (save_cases {| Title := u; Body := C |} σ1 Hvu)
    as [(g & Hsv & _)|[e Hsv]]; rewrite Hsv in Hs2; injection Hs2 as _ <-.
  - cbn [files set_files Title]. rewrite (lookup_insert_ne _ _ _ _ Hnames), Hf.
    cbn [load_result]. rewrite Hr, Hdata. reflexivity.
  - rewrite Hf. cbn [load_result]. rewrite Hr, Hdata. reflexivity.
Qed.

Lemma load_after_other_save_witness :
  let σ := one_file "Bar.txt" (octal [0; 4; 0; 0]%Z) "old" in
  let pf := {| Title := "Foo"; Body := list_byte_of_string "a" |} in
  let pb := {| Title := "Bar"; Body := list_byte_of_string "b" |} in
  valid_title "Foo" = true /\ valid_title "Bar" = true /\ "Foo" <> "Bar" /\
  readable "Foo.txt" σ = true /\
  exists σ1,
    save pf σ = Returned None σ1 /\
    save pb σ1 = Returned (Some (PathError "open" "Bar.txt" EACCES)) σ1 /\
    loadpage "Foo" σ1 = Returned (Some pf, None) σ1.
Proof.
  assert (Hne : "Foo" <> "Bar") by discriminate.
  split; [reflexivity|]. split; [reflexivity|]. split; [exact Hne|].
  split; [reflexivity|].
  destruct (save_returns {| Title := "Foo"; Body := list_byte_of_string "a" |}
              (one_file "Bar.txt" (octal [0; 4; 0; 0]%Z) "old")) as (e1 & σ1 & Hs1).
  assert (He1 : e1 = None) by (vm_compute in Hs1; congruence). subst e1.
  assert (Hs2 : save {| Title := "Bar"; Body := list_byte_of_string "b" |} σ1 =
                Returned (Some (PathError "open" "Bar.txt" EACCES)) σ1).
  { vm_compute in Hs1. injection Hs1 as <-. vm_compute. reflexivity. }
  exists σ1. split; [exact Hs1|]. split; [exact Hs2|].
  exact (load_after_other_save "Foo" "Bar" (list_byte_of_string "a")
           (list_byte_of_string "b")
           (one_file "Bar.txt" (octal [0; 4; 0; 0]%Z) "old") σ1 σ1 _
           eq_refl eq_refl Hne eq_refl Hs1 Hs2).
Defined.

Lemma all_app (f : ascii -> bool) (s1 s2 : string) :
  Strings.all f (s1 +:+ s2) = Strings.all f s1 && Strings.all f s2.
Proof.
  induction s1 as [|c s1 IH]; [reflexivity|].
  rewrite app_cons. simpl. rewrite IH, andb_assoc. reflexivity.
Qed.

Lemma app_assoc_string (s1 s2 s3 : string) :
  (s1 +:+ s2) +:+ s3 = s1 +:+ (s2 +:+ s3).
Proof.
  induction s1 as [|c s1 IH]; [reflexivity|]. rewrite !app_cons, IH. reflexivity.
Qed.

(** The last byte of a string that ends as a non-empty string does. *)
Lemma app_last_byte (a b p : string) (c : ascii) :
  b <> "" -> a +:+ b = p +:+ String c "" -> exists b', b = b' +:+ String c "".
Proof.
  revert p. induction a as [|d a IH]; intros p Hb Heq.
  - rewrite app_nil_l in Heq. exists p. exact Heq.
  - rewrite app_cons in Heq. destruct p as [|e p].
    + rewrite app_nil_l in Heq. injection Heq as _ Heq.
      destruct a; [rewrite app_nil_l in Heq; congruence|discriminate].
    + rewrite app_cons in Heq. injection Heq as _ Heq. apply (IH p Hb Heq).
Qed.

(** X13: the pattern is anchored at the end of the text: a path whose last
    byte is not an ASCII letter or digit (a newline, a slash, a dot, a
    space) is never accepted, whatever comes before; getTitle replies 404
    and returns an error. *)
Theorem getTitle_rejects_trailing_byte
  (r : Request) (σ : State) (path : string) (c : ascii) :
  in_class title_class c = false ->
  URL_Path r = path +:+ String c "" ->
  getTitle r σ =
  Returned ("", Some (errors.New "invalid page title"))
           (reply (ErrorReply "404 page not found" http.StatusNotFound) σ).
Proof.
  intros Hc Hpath. apply getTitle_invalid. rewrite Hpath.
  intros (verb & title & _ & Hv & Heq).
  unfold path_of in Heq. symmetry in Heq.
  change ("/" +:+ verb +:+ "/" +:+ title)
    with ("/" +:+ (verb +:+ ("/" +:+ title))) in Heq.
  rewrite <- (app_assoc_string verb "/" title), <- app_assoc_string in Heq.
  apply app_last_byte in Heq as [t' ->]; [|apply valid_title_nonempty, Hv].
  apply valid_title_all in Hv. rewrite all_app in Hv.
  apply andb_prop in Hv as [_ Hlast]. cbn [Strings.all] in Hlast.
  rewrite Hc in Hlast.
  discriminate.
Qed.

Lemma getTitle_rejects_trailing_byte_witness :
  let r := {| Method := "GET";
              URL_Path := "/view/Foo" +:+ String "010" "";
              URL_Query := []; Body_Form := [] |} in
  in_class title_class "010" = false /\
  getTitle r empty_state =
  Returned ("", Some (errors.New "invalid page title"))
           (reply (ErrorReply "404 page not found" http.StatusNotFound) empty_state).
Proof.
  split; [reflexivity|].
  exact (getTitle_rejects_trailing_byte
           {| Method := "GET";
              URL_Path := "/view/Foo" +:+ String "010" "";
              URL_Query := []; Body_Form := [] |}
           empty_state "/view/Foo" "010" eq_refl eq_refl).
Defined.

(** X14: on a path with a valid title editHandler always renders the
    "edit" template, and always with a page of that title, never with a
    nil page and never with a 404 of its own: the body is the content of
    the file when it is there and may be read, and empty otherwise. *)
Theorem editHandler_always_renders
  (templates : string -> option Page -> string * option error)
  (verb title : string) (r : Request) (σ : State) :
  verb ∈ verbs ->
  valid_title title = true ->
  URL_Path r = path_of verb title ->
  editHandler templates r σ =
  renderTemplate templates "edit"
    (Some {| Title := title;
             Body := match files σ !! (title +:+ ".txt") with
                     | Some f => if owner_may_read (Mode f) then Data f else []
                     | None => []
                     end |})
    (print (fmt.Sprintln [path_of verb title; verb; title]) σ).
Proof.
  intros Hverb Hv Hpath. unfold editHandler.
  rewrite (bind_Returned _ _ _ _ _ (getTitle_valid _ _ _ σ Hverb Hv Hpath)).
  cbn beta iota.
  rewrite (bind_Returned _ _ _ _ _ (loadpage_print _ _ _ Hv)).
  destruct (files σ !! (title +:+ ".txt")) as [f|]; cbn [load_result];
    [destruct (owner_may_read (Mode f))|]; reflexivity.
Qed.

Lemma editHandler_always_renders_witness :
  let σ := one_file "Foo.txt" (octal [0; 2; 0; 0]%Z) "secret" in
  let r := {| Method := "GET"; URL_Path := "/edit/Foo";
              URL_Query := []; Body_Form := [] |} in
  editHandler demo_templates r σ =
  Returned tt {| files := files σ;
                 stdout := fmt.Sprintln ["/edit/Foo"; "edit"; "Foo"];
                 response := [WriteReply "<form>Foo</form>"] |}.
Proof.
  assert (Hverb : "edit" ∈ verbs) by (unfold verbs; repeat constructor).
  exact (editHandler_always_renders demo_templates "edit" "Foo"
           {| Method := "GET"; URL_Path := "/edit/Foo";
              URL_Query := []; Body_Form := [] |}
           (one_file "Foo.txt" (octal [0; 2; 0; 0]%Z) "secret")
           Hverb eq_refl eq_refl).
Defined.
